(** * Gravity Runner: the game simulation of [GravityRunner.tsx]

    A shallow embedding of the simulation core of the component
    (obstacle generator, physics step, collision and scoring, speed
    scaling, persisted high score, input handlers) and the properties
    of it that the specification states.

    Numbers.  A JavaScript [number] is an IEEE-754 binary64 value.  The
    functions below are written once, over an abstract arithmetic
    ([Number]), and are instantiated twice: at the exact rationals
    ([exact], on which the general theorems are proved) and at the
    kernel's binary64 floats ([binary64], on which the code can be
    evaluated with the rounding it really has).  Quantities that the
    code only ever holds as integers (the score, the level, the
    [Date.now()] readings) are [Z].

    Effects.  Each [Date.now()] and [Math.random()] call site reads an
    input of the frame ([Frame]); React state and [localStorage] are
    fields of the component state ([GravityRunner.t]); a state setter
    takes effect at once, except that the [highScore] a frame compares
    against is the one its closure captured when the frame began.
    Rendering and toasts are not modelled. *)

From Stdlib Require Import ZArith QArith Qround Qminmax Lqa Lia List Bool Ascii String.
From Stdlib Require Import Floats.
From stdpp Require Import gmap strings pretty sorting.

Set Default Proof Using "Type".

(** ** Arithmetic of a JavaScript [number] *)

Class Number (num : Type) : Type := {
  ofZ : Z -> num;                    (* an integer literal or integer value *)
  dec : Z -> positive -> num;        (* the decimal literal n/d, e.g. 0.15 *)
  nadd : num -> num -> num;
  nsub : num -> num -> num;
  nmul : num -> num -> num;
  ndiv : num -> num -> num;
  nneg : num -> num;
  nlt : num -> num -> bool;           (* a < b; a > b is [nlt b a] *)
  nle : num -> num -> bool;           (* a <= b; a >= b is [nle b a] *)
  Math_max : num -> num -> num;
  Math_min : num -> num -> num;
  Math_floor : num -> Z
}.

Declare Scope num_scope.
Delimit Scope num_scope with num.
Infix "+" := nadd : num_scope.
Infix "-" := nsub : num_scope.
Infix "*" := nmul : num_scope.
Infix "/" := ndiv : num_scope.
Notation "- x" := (nneg x) : num_scope.
Infix "<?" := nlt : num_scope.
Infix "<=?" := nle : num_scope.
Notation "x >? y" := (nlt y x) (only parsing) : num_scope.
Notation "x >=? y" := (nle y x) (only parsing) : num_scope.

(** Exact arithmetic: the rationals. *)
Definition Qltb (a b : Q) : bool := negb (Qle_bool b a).

#[export] Instance exact : Number Q := {|
  ofZ := inject_Z;
  dec := fun n d => Qmake n d;
  nadd := Qplus;
  nsub := Qminus;
  nmul := Qmult;
  ndiv := Qdiv;
  nneg := Qopp;
  nlt := Qltb;
  nle := Qle_bool;
  Math_max := Qmax;
  Math_min := Qmin;
  Math_floor := Qfloor
|}.

(** The code's own arithmetic: binary64, round to nearest even.  A decimal
    literal is the correctly rounded quotient of two exactly represented
    integers, which is the double the literal denotes. *)
Module B64.

Definition ofZ (z : Z) : float := SF2Prim (binary_normalize prec emax z 0 false).

Definition dec (n : Z) (d : positive) : float :=
    PrimFloat.div (ofZ n) (ofZ (Zpos d)).

Definition max (a b : float) : float :=
    if PrimFloat.is_nan a || PrimFloat.is_nan b then nan
    else if PrimFloat.ltb a b then b else a.

Definition min (a b : float) : float :=
    if PrimFloat.is_nan a || PrimFloat.is_nan b then nan
    else if PrimFloat.ltb b a then b else a.

  (* floor of a finite double, as an integer; 0 where JavaScript has no
     integer to give (NaN, the infinities) *)
Definition floor (a : float) : Z :=
    match Prim2SF a with
    | S754_finite s m e => Z.shiftl (if s then Zneg m else Zpos m) e
    | _ => 0%Z
    end.

End B64.

#[export] Instance binary64 : Number float := {|
  ofZ := B64.ofZ;
  dec := B64.dec;
  nadd := PrimFloat.add;
  nsub := PrimFloat.sub;
  nmul := PrimFloat.mul;
  ndiv := PrimFloat.div;
  nneg := PrimFloat.opp;
  nlt := PrimFloat.ltb;
  nle := PrimFloat.leb;
  Math_max := B64.max;
  Math_min := B64.min;
  Math_floor := B64.floor
|}.

(** ** Data model *)

Module Obstacle.
Record t (num : Type) : Type := Build {
    id : num;
    x : num;
    y : num;
    width : num;
    height : num;
    isTop : bool
  }.
Arguments Build {num}.
Arguments id {num}.
Arguments x {num}.
Arguments y {num}.
Arguments width {num}.
Arguments height {num}.
Arguments isTop {num}.

Definition set_x {num} (v : num) (o : t num) : t num :=
    Build (id o) v (y o) (width o) (height o) (isTop o).
End Obstacle.

Module Particle.
Record t (num : Type) : Type := Build {
    id : Z;
    x : num;
    y : num;
    vx : num;
    vy : num;
    life : num
  }.
Arguments Build {num}.
Arguments id {num}.
Arguments x {num}.
Arguments y {num}.
Arguments vx {num}.
Arguments vy {num}.
Arguments life {num}.
End Particle.

Module Player.
Record t (num : Type) : Type := Build {
    x : num;
    y : num;
    width : num;
    height : num;
    velocityY : num;
    onGround : bool;
    gravityFlipped : bool;
    isFlipping : bool;
    flipStartTime : Z
  }.
Arguments Build {num}.
Arguments x {num}.
Arguments y {num}.
Arguments width {num}.
Arguments height {num}.
Arguments velocityY {num}.
Arguments onGround {num}.
Arguments gravityFlipped {num}.
Arguments isFlipping {num}.
Arguments flipStartTime {num}.

Section Setters.
Context {num : Type}.
Definition set_y (v : num) (p : t num) : t num :=
      Build (x p) v (width p) (height p) (velocityY p) (onGround p)
            (gravityFlipped p) (isFlipping p) (flipStartTime p).
Definition set_velocityY (v : num) (p : t num) : t num :=
      Build (x p) (y p) (width p) (height p) v (onGround p)
            (gravityFlipped p) (isFlipping p) (flipStartTime p).
Definition set_onGround (v : bool) (p : t num) : t num :=
      Build (x p) (y p) (width p) (height p) (velocityY p) v
            (gravityFlipped p) (isFlipping p) (flipStartTime p).
Definition set_gravityFlipped (v : bool) (p : t num) : t num :=
      Build (x p) (y p) (width p) (height p) (velocityY p) (onGround p)
            v (isFlipping p) (flipStartTime p).
Definition set_isFlipping (v : bool) (p : t num) : t num :=
      Build (x p) (y p) (width p) (height p) (velocityY p) (onGround p)
            (gravityFlipped p) v (flipStartTime p).
Definition set_flipStartTime (v : Z) (p : t num) : t num :=
      Build (x p) (y p) (width p) (height p) (velocityY p) (onGround p)
            (gravityFlipped p) (isFlipping p) v.
End Setters.
End Player.

Module Keys.
Record t : Type := Build { space : bool }.
End Keys.

(** [gameState.current] *)
Module GameState.
Record t (num : Type) : Type := Build {
    player : Player.t num;
    obstacles : list (Obstacle.t num);
    particles : list (Particle.t num);
    gameSpeed : num;
    lastObstacleTime : Z;
    score : Z;
    distance : num;
    startTime : Z;
    keys : Keys.t
  }.
Arguments Build {num}.
Arguments player {num}.
Arguments obstacles {num}.
Arguments particles {num}.
Arguments gameSpeed {num}.
Arguments lastObstacleTime {num}.
Arguments score {num}.
Arguments distance {num}.
Arguments startTime {num}.
Arguments keys {num}.

Section Setters.
Context {num : Type}.
Definition set_player (v : Player.t num) (s : t num) : t num :=
      Build v (obstacles s) (particles s) (gameSpeed s) (lastObstacleTime s)
            (score s) (distance s) (startTime s) (keys s).
Definition set_obstacles (v : list (Obstacle.t num)) (s : t num) : t num :=
      Build (player s) v (particles s) (gameSpeed s) (lastObstacleTime s)
            (score s) (distance s) (startTime s) (keys s).
Definition set_particles (v : list (Particle.t num)) (s : t num) : t num :=
      Build (player s) (obstacles s) v (gameSpeed s) (lastObstacleTime s)
            (score s) (distance s) (startTime s) (keys s).
Definition set_gameSpeed (v : num) (s : t num) : t num :=
      Build (player s) (obstacles s) (particles s) v (lastObstacleTime s)
            (score s) (distance s) (startTime s) (keys s).
Definition set_lastObstacleTime (v : Z) (s : t num) : t num :=
      Build (player s) (obstacles s) (particles s) (gameSpeed s) v
            (score s) (distance s) (startTime s) (keys s).
Definition set_score (v : Z) (s : t num) : t num :=
      Build (player s) (obstacles s) (particles s) (gameSpeed s)
            (lastObstacleTime s) v (distance s) (startTime s) (keys s).
Definition set_distance (v : num) (s : t num) : t num :=
      Build (player s) (obstacles s) (particles s) (gameSpeed s)
            (lastObstacleTime s) (score s) v (startTime s) (keys s).
Definition set_startTime (v : Z) (s : t num) : t num :=
      Build (player s) (obstacles s) (particles s) (gameSpeed s)
            (lastObstacleTime s) (score s) (distance s) v (keys s).
Definition set_keys (v : Keys.t) (s : t num) : t num :=
      Build (player s) (obstacles s) (particles s) (gameSpeed s)
            (lastObstacleTime s) (score s) (distance s) (startTime s) v.
End Setters.
End GameState.

(** What [parseInt] returns and the [highScore] state holds: NaN, an
    infinity, or a double whose value is an integer.  The sign of a zero is
    not kept: no comparison and no display in the component tells [-0] from
    [0]. *)
Module Integral.
Inductive t : Type :=
| NaN
| Finite (z : Z)
| Infinity (negative : bool).
End Integral.

(** The component: its React state, the [gameState] ref and the browser's
    [localStorage]. *)
Module GravityRunner.
Record t (num : Type) : Type := Build {
    gameStarted : bool;
    gameOver : bool;
    score : Z;
    distance : Z;
    timeAlive : Z;
    highScore : Integral.t;
    gameState : GameState.t num;
    localStorage : gmap string string
  }.
Arguments Build {num}.
Arguments gameStarted {num}.
Arguments gameOver {num}.
Arguments score {num}.
Arguments distance {num}.
Arguments timeAlive {num}.
Arguments highScore {num}.
Arguments gameState {num}.
Arguments localStorage {num}.

Section Setters.
Context {num : Type}.
Definition setGameStarted (v : bool) (c : t num) : t num :=
      Build v (gameOver c) (score c) (distance c) (timeAlive c) (highScore c)
            (gameState c) (localStorage c).
Definition setGameOver (v : bool) (c : t num) : t num :=
      Build (gameStarted c) v (score c) (distance c) (timeAlive c) (highScore c)
            (gameState c) (localStorage c).
Definition setScore (v : Z) (c : t num) : t num :=
      Build (gameStarted c) (gameOver c) v (distance c) (timeAlive c) (highScore c)
            (gameState c) (localStorage c).
Definition setDistance (v : Z) (c : t num) : t num :=
      Build (gameStarted c) (gameOver c) (score c) v (timeAlive c) (highScore c)
            (gameState c) (localStorage c).
Definition setTimeAlive (v : Z) (c : t num) : t num :=
      Build (gameStarted c) (gameOver c) (score c) (distance c) v (highScore c)
            (gameState c) (localStorage c).
Definition setHighScore (v : Integral.t) (c : t num) : t num :=
      Build (gameStarted c) (gameOver c) (score c) (distance c) (timeAlive c) v
            (gameState c) (localStorage c).
Definition set_gameState (v : GameState.t num) (c : t num) : t num :=
      Build (gameStarted c) (gameOver c) (score c) (distance c) (timeAlive c)
            (highScore c) v (localStorage c).
Definition set_localStorage (v : gmap string string) (c : t num) : t num :=
      Build (gameStarted c) (gameOver c) (score c) (distance c) (timeAlive c)
            (highScore c) (gameState c) v.
End Setters.
End GravityRunner.

(** What one animation frame reads from the outside: the clock at each
    [Date.now()] call site of [updateGame] and the draws of each
    [Math.random()] call site, in call order. *)
Module Frame.
Record t (num : Type) : Type := Build {
    now_frame : Z;                 (* const currentTime = Date.now() *)
    now_flip : Z;                  (* player.flipStartTime = Date.now() *)
    now_particle : nat -> Z;       (* id: Date.now() + i, particle i *)
    now_anim : Z;                  (* Date.now() - player.flipStartTime > 300 *)
    now_spawn : Z;                 (* const now = Date.now() in createObstacle *)
    random_particle : nat -> num;  (* the four draws of particle i are 4i .. 4i+3 *)
    random_spawn : nat -> num      (* the draws of createObstacle and its pattern *)
  }.
Arguments Build {num}.
Arguments now_frame {num}.
Arguments now_flip {num}.
Arguments now_particle {num}.
Arguments now_anim {num}.
Arguments now_spawn {num}.
Arguments random_particle {num}.
Arguments random_spawn {num}.
End Frame.

(** ** The game *)

(** [checkCollision] takes any two objects with [x], [y], [width] and
    [height]; it is called with the player and an obstacle. *)
Class Rect (num : Type) (A : Type) : Type := {
  rect_x : A -> num;
  rect_y : A -> num;
  rect_width : A -> num;
  rect_height : A -> num
}.

#[export] Instance Player_Rect {num} : Rect num (Player.t num) :=
  {| rect_x := Player.x; rect_y := Player.y;
     rect_width := Player.width; rect_height := Player.height |}.

#[export] Instance Obstacle_Rect {num} : Rect num (Obstacle.t num) :=
  {| rect_x := Obstacle.x; rect_y := Obstacle.y;
     rect_width := Obstacle.width; rect_height := Obstacle.height |}.

(** [array.filter(cb)] with a callback that writes to the element and to
    the surrounding state: elements are visited in order, [None] drops. *)
Fixpoint filterWith {S A : Type} (cb : S -> A -> S * option A) (s : S) (l : list A)
  : S * list A :=
  match l with
  | [] => (s, [])
  | a :: l' =>
      let '(s1, keep) := cb s a in
      let '(s2, rest) := filterWith cb s1 l' in
      (s2, match keep with Some a' => a' :: rest | None => rest end)
  end.

(** ** Reading the persisted high score

    Strings.  A JavaScript string is held as the bytes of its UTF-8
    encoding (generalised to lone surrogates), so an ASCII character is one
    byte and every other code point two to four bytes above 127.

    Numbers.  [parseInt] returns an [Integral.t]: NaN, an infinity, or a
    double whose value is an integer.

    [parseInt(s)] with no radix (ECMA-262, 19.2.5): leading white space is
    skipped, an optional sign is read, a [0x]/[0X] prefix selects radix 16,
    and the longest run of digits is the mathematical value, NaN when there
    is no digit; the result is that value as a double, that is rounded to
    nearest, ties to even ([toNumber]), every digit counting (as in V8 and
    the other engines; the standard lets an implementation drop decimal
    digits after the 20th).

    The other direction, [state.score.toString()], is stdpp's [pretty], the
    decimal digits after a minus sign for a negative number: this is
    [Number.prototype.toString] for an integer of absolute value at most
    [2^53], the range in which the score, a double in the code, is the
    integer the model holds. *)
(** The integer [z] as a double: exact up to 53 significant bits, beyond
    them rounded to nearest, ties to even; an infinity from [2^1024] on. *)
Definition toNumber (z : Z) : Integral.t :=
  let a := Z.abs z in
  let extra := (Z.log2 a + 1 - 53)%Z in
  if (extra <=? 0)%Z then Integral.Finite z else
  let q := Z.shiftr a extra in
  let r := (a - Z.shiftl q extra)%Z in
  let half := Z.shiftl 1 (extra - 1) in
  let q' := if (r <? half)%Z || ((r =? half)%Z && Z.even q) then q else (q + 1)%Z in
  let v := Z.shiftl q' extra in
  if (Z.shiftl 1 1024 <=? v)%Z then Integral.Infinity (z <? 0)%Z
  else Integral.Finite (Z.sgn z * v).

(** StrWhiteSpaceChar, one byte long: TAB, LF, VT, FF, CR, SP. *)
Definition isWhiteSpace (n : N) : bool :=
  ((9 <=? n) && (n <=? 13) || (n =? 32))%N.

(** StrWhiteSpaceChar, three bytes long: U+1680 (E1 9A 80), U+2000 to
    U+200A, U+2028, U+2029, U+202F (E2 80 80..8A, A8, A9, AF), U+205F
    (E2 81 9F), U+3000 (E3 80 80) and U+FEFF (EF BB BF). *)
Definition isWhiteSpace3 (n1 n2 n3 : N) : bool :=
  ((n1 =? 225) && (n2 =? 154) && (n3 =? 128)
   || (n1 =? 226) && (n2 =? 128)
      && ((128 <=? n3) && (n3 <=? 138) || (n3 =? 168) || (n3 =? 169) || (n3 =? 175))
   || (n1 =? 226) && (n2 =? 129) && (n3 =? 159)
   || (n1 =? 227) && (n2 =? 128) && (n3 =? 128)
   || (n1 =? 239) && (n2 =? 187) && (n3 =? 191))%N.

(** TrimString(s, start); the one white space of two bytes is U+00A0
    (C2 A0). *)
Fixpoint trimStart (s : string) : string :=
  match s with
  | String c r =>
      let n := N_of_ascii c in
      if isWhiteSpace n then trimStart r
      else if (n =? 194)%N then
        match r with
        | String c2 r2 => if (N_of_ascii c2 =? 160)%N then trimStart r2 else s
        | EmptyString => s
        end
      else if ((n =? 225) || (n =? 226) || (n =? 227) || (n =? 239))%N then
        match r with
        | String c2 (String c3 r3) =>
            if isWhiteSpace3 n (N_of_ascii c2) (N_of_ascii c3) then trimStart r3 else s
        | _ => s
        end
      else s
  | EmptyString => s
  end.

Definition digitOf (radix : Z) (c : ascii) : option Z :=
  let n := Z.of_N (N_of_ascii c) in
  let v :=
    if (48 <=? n)%Z && (n <=? 57)%Z then Some (n - 48)%Z
    else if (97 <=? n)%Z && (n <=? 122)%Z then Some (n - 87)%Z
    else if (65 <=? n)%Z && (n <=? 90)%Z then Some (n - 55)%Z
    else None in
  match v with
  | Some d => if (d <? radix)%Z then Some d else None
  | None => None
  end.

Fixpoint parseDigits (radix : Z) (acc : option Z) (s : string) : option Z :=
  match s with
  | String c r =>
      match digitOf radix c with
      | Some d => parseDigits radix (Some (radix * default 0%Z acc + d)%Z) r
      | None => acc
      end
  | EmptyString => acc
  end.

Definition parseInt (s : string) : Integral.t :=
  let s := trimStart s in
  let '(sign, s) :=
    match s with
    | String "-" r => ((-1)%Z, r)
    | String "+" r => (1%Z, r)
    | _ => (1%Z, s)
    end in
  let '(radix, s) :=
    match s with
    | String "0" (String "x" r) => (16%Z, r)
    | String "0" (String "X" r) => (16%Z, r)
    | _ => (10%Z, s)
    end in
  match parseDigits radix None s with
  | Some mathInt => toNumber (sign * mathInt)
  | None => Integral.NaN
  end.

(** [localStorage.getItem(key) || fallback]: [null] and the empty string
    are falsy. *)
Definition getItem_or (ls : gmap string string) (key fallback : string) : string :=
  match ls !! key with
  | Some EmptyString => fallback
  | Some s => s
  | None => fallback
  end.

Section Game.
Context {num : Type} `{Number num}.
Local Open Scope num_scope.

Definition canvasSize_width : num := ofZ 360.
Definition canvasSize_height : num := ofZ 640.

Definition GRAVITY : num := dec 8 10.
Definition JUMP_FORCE : num := - ofZ 15.
Definition getGroundY : num := canvasSize_height - ofZ 50.
Definition getCeilingY : num := ofZ 50.
Definition getPlayerSize : num := ofZ 25.

(** Progressive difficulty system *)
Definition getDifficultyLevel (score : Z) : Z := (score / 100)%Z.
Definition getObstacleSpacing (level : Z) : Z := Z.max 800 (1500 - level * 100).
Definition getObstacleVariety (level : Z) : Z := Z.min 4 (1 + level / 2).

(** [gameState.current.obstacles.push(o)] *)
Definition push_obstacle (o : Obstacle.t num) (st : GameState.t num) : GameState.t num :=
  GameState.set_obstacles (GameState.obstacles st ++ [o]) st.

Definition createSingleObstacle (id : Z) (random : nat -> num) (st : GameState.t num)
  : GameState.t num :=
  let isTop := random 0%nat <? dec 5 10 in
  let height := canvasSize_height * (dec 15 100 + random 1%nat * dec 15 100) in
  let obstacle :=
    Obstacle.Build (ofZ id) canvasSize_width
      (if isTop then getCeilingY else getGroundY - height)
      (ofZ 20) height isTop in
  push_obstacle obstacle st.

Definition createDoubleObstacle (id : Z) (st : GameState.t num) : GameState.t num :=
  let gap := canvasSize_height * dec 4 10 in
  let topHeight := canvasSize_height * dec 2 10 in
  let bottomHeight := canvasSize_height - gap - topHeight - ofZ 100 in
  let st := push_obstacle
    (Obstacle.Build (ofZ id) canvasSize_width getCeilingY (ofZ 20) topHeight true) st in
  push_obstacle
    (Obstacle.Build (ofZ id + dec 1 10) canvasSize_width (getGroundY - bottomHeight)
       (ofZ 20) bottomHeight false) st.

Definition createNarrowGap (id : Z) (random : nat -> num) (st : GameState.t num)
  : GameState.t num :=
  let gap := Math_max (ofZ 80) (canvasSize_height * dec 25 100) in
  let gapStart :=
    getCeilingY + ofZ 50 + random 0%nat * (canvasSize_height - gap - ofZ 150) in
  let st := push_obstacle
    (Obstacle.Build (ofZ id) canvasSize_width getCeilingY (ofZ 25)
       (gapStart - getCeilingY) true) st in
  push_obstacle
    (Obstacle.Build (ofZ id + dec 1 10) canvasSize_width (gapStart + gap) (ofZ 25)
       (getGroundY - (gapStart + gap)) false) st.

(** One turn of the loop of [createSpikePattern]; spike [i] draws
    [random (1 + 2i)] and [random (2 + 2i)]. *)
Definition createSpike (id : Z) (random : nat -> num) (st : GameState.t num) (i : nat)
  : GameState.t num :=
  let spacing := ofZ 15 in
  let isTop := random (1 + 2 * i)%nat <? dec 5 10 in
  let height := ofZ 40 + random (2 + 2 * i)%nat * ofZ 60 in
  push_obstacle
    (Obstacle.Build (ofZ id + ofZ (Z.of_nat i) * dec 1 10)
       (canvasSize_width + ofZ (Z.of_nat i) * spacing)
       (if isTop then getCeilingY else getGroundY - height)
       (ofZ 12) height isTop) st.

Definition createSpikePattern (id : Z) (random : nat -> num) (st : GameState.t num)
  : GameState.t num :=
  let spikeCount := (3 + Math_floor (random 0%nat * ofZ 3)%num)%Z in
  fold_left (createSpike id random) (seq 0 (Z.to_nat spikeCount)) st.

Definition createObstacle (now : Z) (random : nat -> num) (st : GameState.t num)
  : GameState.t num :=
  let level := getDifficultyLevel (GameState.score st) in
  let spacing := getObstacleSpacing level in
  if (now - GameState.lastObstacleTime st <? spacing)%Z then st else
  let variety := getObstacleVariety level in
  let pattern := Math_floor (random 0%nat * ofZ variety) in
  let rest := fun i => random (S i) in
  let st :=
    match pattern with
    | 0%Z => createSingleObstacle now rest st
    | 1%Z => createDoubleObstacle now st
    | 2%Z => createNarrowGap now rest st
    | 3%Z => createSpikePattern now rest st
    | _ => createSingleObstacle now rest st
    end in
  GameState.set_lastObstacleTime now st.

Definition createParticle (x y : num) (now : nat -> Z) (random : nat -> num)
  (st : GameState.t num) (i : nat) : GameState.t num :=
  let particle :=
    Particle.Build (now i + Z.of_nat i)%Z
      (x + random (4 * i)%nat * ofZ 20 - ofZ 10)
      (y + random (4 * i + 1)%nat * ofZ 20 - ofZ 10)
      ((random (4 * i + 2)%nat - dec 5 10) * ofZ 8)
      ((random (4 * i + 3)%nat - dec 5 10) * ofZ 8)
      (ofZ 1) in
  GameState.set_particles (GameState.particles st ++ [particle]) st.

Definition createParticles (x y : num) (now : nat -> Z) (random : nat -> num)
  (st : GameState.t num) : GameState.t num :=
  fold_left (createParticle x y now random) (seq 0 8) st.

Definition checkCollision {A B : Type} `{Rect num A} `{Rect num B} (rect1 : A) (rect2 : B)
  : bool :=
  (rect_x rect1 <? rect_x rect2 + rect_width rect2) &&
  (rect_x rect1 + rect_width rect1 >? rect_x rect2) &&
  (rect_y rect1 <? rect_y rect2 + rect_height rect2) &&
  (rect_y rect1 + rect_height rect1 >? rect_y rect2).

(** *** [updateGame], block by block *)

(** Update distance and time tracking *)
Definition trackDistanceAndTime (f : Frame.t num) (c : GravityRunner.t num)
  : GravityRunner.t num :=
  let state := GravityRunner.gameState c in
  let state := GameState.set_distance (GameState.distance state + GameState.gameSpeed state) state in
  let currentTime := Frame.now_frame f in
  let state :=
    if (GameState.startTime state =? 0)%Z then GameState.set_startTime currentTime state
    else state in
  let timeAliveSeconds := ((currentTime - GameState.startTime state) / 1000)%Z in
  let c := GravityRunner.set_gameState state c in
  let c := GravityRunner.setDistance (Math_floor (GameState.distance state)) c in
  GravityRunner.setTimeAlive timeAliveSeconds c.

(** Handle gravity flip *)
Definition handleGravityFlip (f : Frame.t num) (state : GameState.t num) : GameState.t num :=
  let player := GameState.player state in
  if Keys.space (GameState.keys state) && negb (Player.isFlipping player) then
    let player := Player.set_gravityFlipped (negb (Player.gravityFlipped player)) player in
    let player := Player.set_isFlipping true player in
    let player := Player.set_flipStartTime (Frame.now_flip f) player in
    let player :=
      Player.set_velocityY
        (if Player.gravityFlipped player then JUMP_FORCE else - JUMP_FORCE) player in
    createParticles
      (Player.x player + Player.width player / ofZ 2)
      (Player.y player + Player.height player / ofZ 2)
      (Frame.now_particle f) (Frame.random_particle f)
      (GameState.set_player player state)
  else state.

(** Update flip animation *)
Definition updateFlipAnimation (f : Frame.t num) (player : Player.t num) : Player.t num :=
  if Player.isFlipping player
     && (Frame.now_anim f - Player.flipStartTime player >? 300)%Z
  then Player.set_isFlipping false player
  else player.

(** Apply gravity, update player position *)
Definition applyGravity (player : Player.t num) : Player.t num :=
  let gravity := if Player.gravityFlipped player then - GRAVITY else GRAVITY in
  let player := Player.set_velocityY (Player.velocityY player + gravity) player in
  Player.set_y (Player.y player + Player.velocityY player) player.

(** Ground/ceiling collision *)
Definition groundCeilingCollision (player : Player.t num) : Player.t num :=
  let groundY := getGroundY in
  let ceilingY := getCeilingY in
  if negb (Player.gravityFlipped player) then
    if Player.y player + Player.height player >=? groundY then
      let player := Player.set_y (groundY - Player.height player) player in
      let player := Player.set_velocityY (ofZ 0) player in
      Player.set_onGround true player
    else Player.set_onGround false player
  else
    if Player.y player <=? ceilingY then
      let player := Player.set_y ceilingY player in
      let player := Player.set_velocityY (ofZ 0) player in
      Player.set_onGround true player
    else Player.set_onGround false player.

(** Lines 207-259: everything [updateGame] does to the player. *)
Definition physicsStep (f : Frame.t num) (c : GravityRunner.t num) : GravityRunner.t num :=
  let c := trackDistanceAndTime f c in
  let state := handleGravityFlip f (GravityRunner.gameState c) in
  let player := updateFlipAnimation f (GameState.player state) in
  let player := applyGravity player in
  let player := groundCeilingCollision player in
  GravityRunner.set_gameState (GameState.set_player player state) c.

Definition gravityRunnerHighScore : string := "gravityRunnerHighScore".

(** [state.score > highScore]: no score is greater than NaN or [Infinity],
    every score is greater than [-Infinity]. *)
Definition score_gt (score : Z) (highScore : Integral.t) : bool :=
  match highScore with
  | Integral.Finite h => (h <? score)%Z
  | Integral.NaN => false
  | Integral.Infinity negative => negative
  end.

(** The callback of [state.obstacles.filter]; [highScore] is the value the
    closure of [updateGame] holds. *)
Definition obstacleStep (highScore : Integral.t) (c : GravityRunner.t num)
  (obstacle : Obstacle.t num) : GravityRunner.t num * option (Obstacle.t num) :=
  let state := GravityRunner.gameState c in
  let player := GameState.player state in
  let obstacle := Obstacle.set_x (Obstacle.x obstacle - GameState.gameSpeed state) obstacle in
  (* Remove off-screen obstacles and award points *)
  if Obstacle.x obstacle + Obstacle.width obstacle <? ofZ 0 then
    let state := GameState.set_score (GameState.score state + 10)%Z state in
    let c := GravityRunner.set_gameState state c in
    (GravityRunner.setScore (GameState.score state) c, None)
  (* Check collision *)
  else if checkCollision player obstacle then
    let c := GravityRunner.setGameOver true c in
    let c :=
      if score_gt (GameState.score state) highScore then
        let c := GravityRunner.setHighScore (Integral.Finite (GameState.score state)) c in
        GravityRunner.set_localStorage
          (<[gravityRunnerHighScore := pretty (GameState.score state)]>
             (GravityRunner.localStorage c)) c
      else c in
    (c, None)
  else (c, Some obstacle).

(** Update obstacles *)
Definition updateObstacles (c : GravityRunner.t num) : GravityRunner.t num :=
  let '(c, kept) :=
    filterWith (obstacleStep (GravityRunner.highScore c)) c
      (GameState.obstacles (GravityRunner.gameState c)) in
  GravityRunner.set_gameState (GameState.set_obstacles kept (GravityRunner.gameState c)) c.

(** Update particles *)
Definition particleStep (particle : Particle.t num) : option (Particle.t num) :=
  let particle :=
    Particle.Build (Particle.id particle)
      (Particle.x particle + Particle.vx particle)
      (Particle.y particle + Particle.vy particle)
      (Particle.vx particle * dec 98 100)
      (Particle.vy particle * dec 98 100)
      (Particle.life particle - dec 2 100) in
  if Particle.life particle >? ofZ 0 then Some particle else None.

Definition updateParticles (state : GameState.t num) : GameState.t num :=
  GameState.set_particles
    (snd (filterWith (fun (_ : unit) p => (tt, particleStep p)) tt (GameState.particles state)))
    state.

(** Progressive speed increase *)
Definition updateSpeed (state : GameState.t num) : GameState.t num :=
  let level := getDifficultyLevel (GameState.score state) in
  let baseSpeed := ofZ 4 in
  let speedMultiplier :=
    ofZ 1 + (ofZ level * dec 3 10) + (GameState.distance state * dec 1 10000) in
  GameState.set_gameSpeed (Math_min (ofZ 12) (baseSpeed * speedMultiplier)) state.

Definition updateGame (f : Frame.t num) (c : GravityRunner.t num) : GravityRunner.t num :=
  let c := physicsStep f c in
  let c :=
    GravityRunner.set_gameState
      (createObstacle (Frame.now_spawn f) (Frame.random_spawn f) (GravityRunner.gameState c)) c in
  let c := updateObstacles c in
  let state := updateParticles (GravityRunner.gameState c) in
  GravityRunner.set_gameState (updateSpeed state) c.

(** *** The component around the loop *)

Definition startGame (c : GravityRunner.t num) : GravityRunner.t num :=
  let c := GravityRunner.setGameStarted true c in
  let c := GravityRunner.setGameOver false c in
  let c := GravityRunner.setScore 0 c in
  let c := GravityRunner.setDistance 0 c in
  let c := GravityRunner.setTimeAlive 0 c in
  let playerSize := getPlayerSize in
  let startY := canvasSize_height / ofZ 2 in
  GravityRunner.set_gameState
    (GameState.Build
       (Player.Build (canvasSize_width * dec 15 100) startY playerSize playerSize
          (ofZ 0) true false false 0)
       [] [] (ofZ 4) 0 0 (ofZ 0) 0 (Keys.Build false)) c.

Definition set_space (v : bool) (c : GravityRunner.t num) : GravityRunner.t num :=
  GravityRunner.set_gameState
    (GameState.set_keys (Keys.Build v) (GravityRunner.gameState c)) c.

Definition handleKeyDown (c : GravityRunner.t num) : GravityRunner.t num :=
  if negb (GravityRunner.gameStarted c) && negb (GravityRunner.gameOver c) then startGame c
  else if GravityRunner.gameStarted c && negb (GravityRunner.gameOver c) then set_space true c
  else if GravityRunner.gameOver c then startGame c
  else c.

Definition handleKeyUp (c : GravityRunner.t num) : GravityRunner.t num :=
  set_space false c.

(** [handleTouch]; the callback it hands to [setTimeout] is [touchTimeout] *)
Definition handleTouch (c : GravityRunner.t num) : GravityRunner.t num :=
  if negb (GravityRunner.gameStarted c) && negb (GravityRunner.gameOver c) then startGame c
  else if GravityRunner.gameStarted c && negb (GravityRunner.gameOver c) then set_space true c
  else if GravityRunner.gameOver c then startGame c
  else c.

Definition touchTimeout (c : GravityRunner.t num) : GravityRunner.t num :=
  set_space false c.

Definition gameLoop (f : Frame.t num) (c : GravityRunner.t num) : GravityRunner.t num :=
  if negb (GravityRunner.gameOver c) && GravityRunner.gameStarted c then updateGame f c
  else c.

(** The initial value of [highScore] *)
Definition readHighScore (ls : gmap string string) : Integral.t :=
  parseInt (getItem_or ls gravityRunnerHighScore "0").

(** The component when it mounts over a given [localStorage] *)
Definition mount (ls : gmap string string) : GravityRunner.t num :=
  GravityRunner.Build false false 0 0 0 (readHighScore ls)
    (GameState.Build
       (Player.Build (ofZ 100) (ofZ 300) (ofZ 30) (ofZ 30) (ofZ 0) true false false 0)
       [] [] (ofZ 3) 0 0 (ofZ 0) 0 (Keys.Build false))
    ls.

End Game.

Arguments createSingleObstacle : simpl never.
Arguments createDoubleObstacle : simpl never.
Arguments createNarrowGap : simpl never.
Arguments createSpikePattern : simpl never.
Arguments createObstacle : simpl never.
Arguments createParticles : simpl never.
Arguments trackDistanceAndTime : simpl never.
Arguments handleGravityFlip : simpl never.
Arguments updateFlipAnimation : simpl never.
Arguments applyGravity : simpl never.
Arguments groundCeilingCollision : simpl never.
Arguments physicsStep : simpl never.
Arguments obstacleStep : simpl never.
Arguments updateObstacles : simpl never.
Arguments updateParticles : simpl never.
Arguments updateSpeed : simpl never.
Arguments updateGame : simpl never.
Arguments startGame : simpl never.
Arguments gameLoop : simpl never.
Arguments mount : simpl never.
Arguments toNumber : simpl never.

(** What happens to the component, one event at a time. *)
Inductive Event (num : Type) : Type :=
| KeyDownSpace                      (* keydown, code Space *)
| KeyUpSpace                        (* keyup, code Space *)
| CanvasClick                       (* onClick of the canvas: handleTouch *)
| TouchTimeout                      (* the 100 ms timer of handleTouch fires *)
| StartButton                       (* Start Game / Play Again: startGame *)
| AnimationFrame (f : Frame.t num). (* requestAnimationFrame calls gameLoop *)
Arguments KeyDownSpace {num}.
Arguments KeyUpSpace {num}.
Arguments CanvasClick {num}.
Arguments TouchTimeout {num}.
Arguments StartButton {num}.
Arguments AnimationFrame {num}.

Definition handle {num : Type} `{Number num} (c : GravityRunner.t num) (e : Event num)
  : GravityRunner.t num :=
  match e with
  | KeyDownSpace => handleKeyDown c
  | KeyUpSpace => handleKeyUp c
  | CanvasClick => handleTouch c
  | TouchTimeout => touchTimeout c
  | StartButton => startGame c
  | AnimationFrame f => gameLoop f c
  end.

Definition run {num : Type} `{Number num} (c : GravityRunner.t num) (es : list (Event num))
  : GravityRunner.t num :=
  fold_left handle es c.


(** A stretch of frames of a running game: before each frame the input
    handlers have left the flip flag at the given value. *)
Definition frames {num : Type} `{Number num} (c : GravityRunner.t num)
  (l : list (bool * Frame.t num)) : GravityRunner.t num :=
  fold_left (fun c bf => updateGame (snd bf) (set_space (fst bf) c)) l c.

(** [st'] is [st] with obstacles appended, each of them satisfying [P]. *)
Definition spawns {num : Type} (P : Obstacle.t num -> Prop) (st st' : GameState.t num) : Prop :=
  exists added,
    GameState.obstacles st' = GameState.obstacles st ++ added /\ Forall P added.

(** The four pattern variants, in the order of the [switch] of
    [createObstacle]. *)
Definition patternVariants {num : Type} `{Number num} (now : Z) (rest : nat -> num)
  : list (GameState.t num -> GameState.t num) :=
  [createSingleObstacle now rest; createDoubleObstacle now;
   createNarrowGap now rest; createSpikePattern now rest].

(** ** Concrete games

    The states and inputs at which the theorems below are instantiated. *)

(** A fresh game over an empty [localStorage], in either arithmetic. *)
Definition fresh {num : Type} `{Number num} : GravityRunner.t num :=
  startGame (mount ∅).

(** The same game once the score has reached 400 (level 4, three patterns). *)
Definition level4 {num : Type} `{Number num} : GameState.t num :=
  GameState.set_score 400 (GravityRunner.gameState fresh).

(** The largest double below 1, [1 - 2^-53], and the one before it,
    [1 - 2^-52]. *)
Definition top_draw : float := 0x1.fffffffffffffp-1%float.
Definition top_draw' : float := 0x1.ffffffffffffep-1%float.

Definition half : nat -> Q := fun _ => (1 # 2)%Q.

(** The trailing edge of an obstacle is left of the boundary once the
    obstacle has moved by [speed]: the test of the filter callback. *)
Definition passed {num : Type} `{Number num} (speed : num) (o : Obstacle.t num) : bool :=
  nlt (nadd (nsub (Obstacle.x o) speed) (Obstacle.width o)) (ofZ 0).

Definition frameAt {num : Type} (random : nat -> num) (t : Z) : Frame.t num :=
  Frame.Build t t (fun _ => t) t t random random.

(** The player is between the ceiling and the ground. *)
Definition inBand (p : Player.t Q) : Prop :=
  (getCeilingY <= Player.y p)%Q /\ (Player.y p + Player.height p <= getGroundY)%Q.

(** In the band, and moving (if at all) towards the surface that attracts
    it: the invariant of the physics step. *)
Definition settled (p : Player.t Q) : Prop :=
  inBand p /\
  (Player.gravityFlipped p = true -> (Player.velocityY p <= 0)%Q) /\
  (Player.gravityFlipped p = false -> (0 <= Player.velocityY p)%Q).

(** The high score and the storage of a component mounted over [ls0]:
    as they were at the mount, or a score and its digits under the key. *)
Definition persisted {num : Type} (ls0 : gmap string string) (c : GravityRunner.t num)
  : Prop :=
  (GravityRunner.highScore c = readHighScore ls0 /\ GravityRunner.localStorage c = ls0) \/
  (exists s : Z,
     GravityRunner.highScore c = Integral.Finite s /\
     GravityRunner.localStorage c = <[gravityRunnerHighScore := pretty s]> ls0).

(** The integers a double holds one by one. *)
Definition safeInteger (z : Z) : Prop := (Z.abs z <= 2 ^ 53)%Z.

(** A fresh game with 40 points on the board, and an obstacle that sits on
    the player once it has moved. *)
Definition with40 : GravityRunner.t Q :=
  GravityRunner.set_gameState (GameState.set_score 40 (GravityRunner.gameState fresh)) fresh.

Definition wall : Obstacle.t Q := Obstacle.Build 0%Q 60%Q 300%Q 20%Q 100%Q false.

(** The same game with that obstacle ahead of the player. *)
Definition with40_wall : GravityRunner.t Q :=
  GravityRunner.set_gameState
    (GameState.set_obstacles [wall] (GravityRunner.gameState with40)) with40.

(** [n] frames 16 ms apart from clock reading [t] on, every draw being
    [random i]. *)
Fixpoint advance {num : Type} `{Number num} (random : nat -> num) (n : nat) (t : Z)
  (c : GravityRunner.t num) : GravityRunner.t num :=
  match n with
  | O => c
  | S n' => advance random n' (t + 16) (gameLoop (frameAt random t) c)
  end.

(** Draws that make every obstacle a single one hanging from the ceiling
    ([quarter]) or standing on the ground ([threeQuarters]). *)
Definition quarter : nat -> float := fun _ => B64.dec 1 4.
Definition threeQuarters : nat -> float := fun _ => B64.dec 3 4.

(** A fresh binary64 game with 30 points on the board. *)
Definition with30 : GravityRunner.t float :=
  GravityRunner.set_gameState (GameState.set_score 30 (GravityRunner.gameState fresh)) fresh.


(** ** The rest of the component, and what the further properties speak of *)

(** The three states of the loop driver, as the handlers and [gameLoop]
    tell them apart. *)
Inductive Phase : Type := Idle | Running | GameOver.

Definition phase {num : Type} (c : GravityRunner.t num) : Phase :=
  if GravityRunner.gameOver c then GameOver
  else if GravityRunner.gameStarted c then Running
  else Idle.

(** The game without its particles. *)
Definition forget {num : Type} (c : GravityRunner.t num) : GravityRunner.t num :=
  GravityRunner.set_gameState (GameState.set_particles [] (GravityRunner.gameState c)) c.

(** Two frames that differ at most in what [createParticles] reads. *)
Definition sameGameplayInputs {num : Type} (f f' : Frame.t num) : Prop :=
  Frame.now_frame f = Frame.now_frame f' /\
  Frame.now_flip f = Frame.now_flip f' /\
  Frame.now_anim f = Frame.now_anim f' /\
  Frame.now_spawn f = Frame.now_spawn f' /\
  Frame.random_spawn f = Frame.random_spawn f'.

(** The obstacle, once moved by [speed], is still on screen and overlaps the
    player: the second test of the filter callback. *)
Definition hits {num : Type} `{Number num} (player : Player.t num) (speed : num)
  (o : Obstacle.t num) : bool :=
  negb (passed speed o)
  && checkCollision player (Obstacle.set_x (nsub (Obstacle.x o) speed) o).

(** The object literal of the loop of [createSpikePattern]. *)
Definition spikeAt {num : Type} `{Number num} (id : Z) (random : nat -> num) (i : nat)
  : Obstacle.t num :=
  Obstacle.Build (nadd (ofZ id) (nmul (ofZ (Z.of_nat i)) (dec 1 10)))
    (nadd canvasSize_width (nmul (ofZ (Z.of_nat i)) (ofZ 15)))
    (if nlt (random (1 + 2 * i)%nat) (dec 5 10) then getCeilingY
     else nsub getGroundY (nadd (ofZ 40) (nmul (random (2 + 2 * i)%nat) (ofZ 60))))
    (ofZ 12) (nadd (ofZ 40) (nmul (random (2 + 2 * i)%nat) (ofZ 60)))
    (nlt (random (1 + 2 * i)%nat) (dec 5 10)).

(** [n] frames in the life of a particle. *)
Fixpoint particleSteps {num : Type} `{Number num} (n : nat) (p : Particle.t num)
  : option (Particle.t num) :=
  match n with
  | O => Some p
  | S n' =>
      match particleStep p with
      | Some p' => particleSteps n' p'
      | None => None
      end
  end.

(** Every draw of the frame is a value [Math.random()] can return. *)
Definition drawsInRange (f : Frame.t Q) : Prop :=
  forall i, (0 <= Frame.random_spawn f i)%Q /\ (Frame.random_spawn f i < 1)%Q.

Definition eventInRange (e : Event Q) : Prop :=
  match e with
  | AnimationFrame f => drawsInRange f
  | _ => True
  end.

(** A [localStorage] whose entry is not a number. *)
Definition corrupted : gmap string string := {[ gravityRunnerHighScore := "abc" ]}.

(** Obstacle identifiers grow along the collection and none is more than
    0.4 past the last spawn time. *)
Definition idsOrdered (st : GameState.t Q) : Prop :=
  StronglySorted Qlt (map Obstacle.id (GameState.obstacles st)) /\
  Forall (fun o =>
            (Obstacle.id o <= inject_Z (GameState.lastObstacleTime st) + (4 # 10))%Q)
         (GameState.obstacles st).

(** The speed is the one the last block of [updateGame] computes from the
    score and the distance, and neither of these is negative. *)
Definition paced (st : GameState.t Q) : Prop :=
  (GameState.gameSpeed st ==
     Qmin 12 (4 * (1 + inject_Z (getDifficultyLevel (GameState.score st)) * (3 # 10)
                   + GameState.distance st * (1 # 10000))))%Q /\
  (0 <= GameState.distance st)%Q /\
  (0 <= GameState.score st)%Z.

(** The score on display is the score of the game, a non-negative multiple
    of 10. *)
Definition scoreKept {num : Type} (c : GravityRunner.t num) : Prop :=
  GravityRunner.score c = GameState.score (GravityRunner.gameState c) /\
  (0 <= GameState.score (GravityRunner.gameState c))%Z /\
  (10 | GameState.score (GravityRunner.gameState c))%Z.

(** A particle as [createParticles] makes them: life 1. *)
Definition spark : Particle.t Q := Particle.Build 0%Z 0%Q 0%Q 1%Q 1%Q 1%Q.

(** The events that call [startGame] when no game is running. *)
Definition starts {num : Type} (e : Event num) : bool :=
  match e with
  | KeyDownSpace | CanvasClick | StartButton => true
  | _ => false
  end.

(** Two events that differ at most in what [createParticles] reads. *)
Definition sameGameplayEvent {num : Type} (e e' : Event num) : Prop :=
  match e, e' with
  | AnimationFrame f, AnimationFrame f' => sameGameplayInputs f f'
  | AnimationFrame _, _ | _, AnimationFrame _ => False
  | _, _ => e = e'
  end.

(** The game with other particles. *)
Definition withParticles {num : Type} (ps : list (Particle.t num)) (c : GravityRunner.t num)
  : GravityRunner.t num :=
  GravityRunner.set_gameState (GameState.set_particles ps (GravityRunner.gameState c)) c.

(** A game that differs from [with40] in its particles only, and a frame
    that differs from [frameAt half 2000] in what [createParticles] reads. *)
Definition with40_sparks : GravityRunner.t Q := withParticles [spark; spark] with40.

Definition otherSparks : Frame.t Q :=
  Frame.Build 2000 2000 (fun i => 2001 + Z.of_nat i)%Z 2000 2000
    (fun _ => 1 # 4) (Frame.random_spawn (frameAt half 2000)).


(** * Properties *)

(** ** What each block of [updateGame] leaves alone (any arithmetic) *)

Section Frame_lemmas.
Context {num : Type} `{Number num}.

Lemma filterWith_inv {S A : Type} (I : S -> Prop) (cb : S -> A -> S * option A) (l : list A) :
  (forall s a, I s -> I (fst (cb s a))) ->
  forall s, I s -> I (fst (filterWith cb s l)).
Proof.
  intros Hcb. induction l as [|a l IH]; intros s Hs; cbn; [exact Hs|].
  specialize (Hcb s a Hs). destruct (cb s a) as [s1 keep]. cbn in Hcb.
  specialize (IH s1 Hcb). destruct (filterWith cb s1 l) as [s2 rest]. exact IH.
Qed.

Lemma fold_left_inv {S A : Type} (I : S -> Prop) (g : S -> A -> S) (l : list A) :
  (forall s a, I s -> I (g s a)) -> forall s, I s -> I (fold_left g l s).
Proof.
  intros Hg. induction l as [|a l IH]; intros s Hs; cbn; [exact Hs|].
  apply IH, Hg, Hs.
Qed.

Lemma spawns_refl (P : Obstacle.t num -> Prop) st : spawns P st st.
Proof. exists []. split; [now rewrite app_nil_r | constructor]. Qed.

Lemma spawns_trans (P : Obstacle.t num -> Prop) st1 st2 st3 :
  spawns P st1 st2 -> spawns P st2 st3 -> spawns P st1 st3.
Proof.
  intros (a1 & E1 & F1) (a2 & E2 & F2). exists (a1 ++ a2). split.
  - rewrite E2, E1. now rewrite <- app_assoc.
  - apply Forall_app. now split.
Qed.

Lemma spawns_push (P : Obstacle.t num -> Prop) o st :
  P o -> spawns P st (push_obstacle o st).
Proof. intros Ho. exists [o]. split; [reflexivity | now repeat constructor]. Qed.

Lemma spawns_fold {A : Type} (P : Obstacle.t num -> Prop)
  (g : GameState.t num -> A -> GameState.t num) (l : list A) :
  (forall st a, In a l -> spawns P st (g st a)) ->
  forall st, spawns P st (fold_left g l st).
Proof.
  induction l as [|a l IH]; intros Hg st; cbn; [apply spawns_refl|].
  eapply spawns_trans; [apply Hg; now left|]. apply IH. intros; apply Hg; now right.
Qed.

Lemma createParticles_player x y now random st :
  GameState.player (createParticles x y now random st) = GameState.player st.
Proof.
  unfold createParticles.
  apply (fold_left_inv (fun s => GameState.player s = GameState.player st)); [|reflexivity].
  intros s a Hs. exact Hs.
Qed.

Lemma createParticles_keys x y now random st :
  GameState.keys (createParticles x y now random st) = GameState.keys st.
Proof.
  unfold createParticles.
  apply (fold_left_inv (fun s => GameState.keys s = GameState.keys st)); [|reflexivity].
  intros s a Hs. exact Hs.
Qed.

Lemma createParticles_score x y now random st :
  GameState.score (createParticles x y now random st) = GameState.score st.
Proof.
  unfold createParticles.
  apply (fold_left_inv (fun s => GameState.score s = GameState.score st)); [|reflexivity].
  intros s a Hs. exact Hs.
Qed.

Lemma createSpikePattern_frame id random st :
  let st' := createSpikePattern id random st in
  GameState.player st' = GameState.player st /\
  GameState.keys st' = GameState.keys st /\
  GameState.score st' = GameState.score st /\
  GameState.gameSpeed st' = GameState.gameSpeed st /\
  GameState.distance st' = GameState.distance st.
Proof.
  unfold createSpikePattern.
  apply (fold_left_inv (fun s =>
    GameState.player s = GameState.player st /\
    GameState.keys s = GameState.keys st /\
    GameState.score s = GameState.score st /\
    GameState.gameSpeed s = GameState.gameSpeed st /\
    GameState.distance s = GameState.distance st)); [|now repeat split].
  intros s a Hs. exact Hs.
Qed.

(** [createObstacle] writes [obstacles] and [lastObstacleTime] only. *)
Lemma createObstacle_frame now random st :
  let st' := createObstacle now random st in
  GameState.player st' = GameState.player st /\
  GameState.keys st' = GameState.keys st /\
  GameState.score st' = GameState.score st /\
  GameState.gameSpeed st' = GameState.gameSpeed st /\
  GameState.distance st' = GameState.distance st.
Proof.
  unfold createObstacle.
  destruct (_ <? _)%Z; [now repeat split|].
  destruct (Math_floor _) as [|[p|p|]|p]; try (now repeat split);
    try (apply createSpikePattern_frame);
    destruct p as [p|p|]; try (now repeat split); apply createSpikePattern_frame.
Qed.

Lemma obstacleStep_frame hs c o :
  let c' := fst (obstacleStep hs c o) in
  GameState.player (GravityRunner.gameState c') = GameState.player (GravityRunner.gameState c) /\
  GameState.keys (GravityRunner.gameState c') = GameState.keys (GravityRunner.gameState c) /\
  GameState.gameSpeed (GravityRunner.gameState c') = GameState.gameSpeed (GravityRunner.gameState c) /\
  GameState.distance (GravityRunner.gameState c') = GameState.distance (GravityRunner.gameState c).
Proof.
  unfold obstacleStep. cbn zeta.
  destruct (nlt _ _); [now repeat split|].
  destruct (checkCollision _ _); [|now repeat split].
  destruct (score_gt _ _); now repeat split.
Qed.

Lemma updateObstacles_frame c :
  let c' := updateObstacles c in
  GameState.player (GravityRunner.gameState c') = GameState.player (GravityRunner.gameState c) /\
  GameState.keys (GravityRunner.gameState c') = GameState.keys (GravityRunner.gameState c) /\
  GameState.gameSpeed (GravityRunner.gameState c') = GameState.gameSpeed (GravityRunner.gameState c) /\
  GameState.distance (GravityRunner.gameState c') = GameState.distance (GravityRunner.gameState c).
Proof.
  unfold updateObstacles.
  assert (Hinv := filterWith_inv (fun s =>
    GameState.player (GravityRunner.gameState s) = GameState.player (GravityRunner.gameState c) /\
    GameState.keys (GravityRunner.gameState s) = GameState.keys (GravityRunner.gameState c) /\
    GameState.gameSpeed (GravityRunner.gameState s) = GameState.gameSpeed (GravityRunner.gameState c) /\
    GameState.distance (GravityRunner.gameState s) = GameState.distance (GravityRunner.gameState c))
    (obstacleStep (GravityRunner.highScore c))
    (GameState.obstacles (GravityRunner.gameState c))).
  cbv beta in Hinv.
  assert (Hc : forall s a,
    GameState.player (GravityRunner.gameState s) = GameState.player (GravityRunner.gameState c) /\
    GameState.keys (GravityRunner.gameState s) = GameState.keys (GravityRunner.gameState c) /\
    GameState.gameSpeed (GravityRunner.gameState s) = GameState.gameSpeed (GravityRunner.gameState c) /\
    GameState.distance (GravityRunner.gameState s) = GameState.distance (GravityRunner.gameState c) ->
    let s' := fst (obstacleStep (GravityRunner.highScore c) s a) in
    GameState.player (GravityRunner.gameState s') = GameState.player (GravityRunner.gameState c) /\
    GameState.keys (GravityRunner.gameState s') = GameState.keys (GravityRunner.gameState c) /\
    GameState.gameSpeed (GravityRunner.gameState s') = GameState.gameSpeed (GravityRunner.gameState c) /\
    GameState.distance (GravityRunner.gameState s') = GameState.distance (GravityRunner.gameState c)).
  { intros s a (E1 & E2 & E3 & E4).
    destruct (obstacleStep_frame (GravityRunner.highScore c) s a) as (F1 & F2 & F3 & F4).
    cbn zeta in *. rewrite F1, F2, F3, F4. now repeat split. }
  specialize (Hinv Hc c (conj eq_refl (conj eq_refl (conj eq_refl eq_refl)))).
  destruct (filterWith _ c _) as [c1 kept]. exact Hinv.
Qed.

(** After the ground/ceiling block nothing in [updateGame] writes to the
    player or to the flip flag. *)
Lemma updateGame_player f c :
  GameState.player (GravityRunner.gameState (updateGame f c))
  = GameState.player (GravityRunner.gameState (physicsStep f c)).
Proof.
  unfold updateGame, updateSpeed, updateParticles. cbn.
  destruct (updateObstacles_frame
    (GravityRunner.set_gameState
       (createObstacle (Frame.now_spawn f) (Frame.random_spawn f)
          (GravityRunner.gameState (physicsStep f c))) (physicsStep f c))) as (E & _).
  cbn in E. rewrite E.
  apply (createObstacle_frame (Frame.now_spawn f) (Frame.random_spawn f)).
Qed.

Lemma handleGravityFlip_keys f st :
  GameState.keys (handleGravityFlip f st) = GameState.keys st.
Proof.
  unfold handleGravityFlip. destruct (_ && _); [|reflexivity].
  now rewrite createParticles_keys.
Qed.

Lemma updateGame_keys f c :
  GameState.keys (GravityRunner.gameState (updateGame f c))
  = GameState.keys (GravityRunner.gameState c).
Proof.
  unfold updateGame, updateSpeed, updateParticles. cbn.
  destruct (updateObstacles_frame
    (GravityRunner.set_gameState
       (createObstacle (Frame.now_spawn f) (Frame.random_spawn f)
          (GravityRunner.gameState (physicsStep f c))) (physicsStep f c))) as (_ & E & _).
  cbn in E. rewrite E.
  destruct (createObstacle_frame (Frame.now_spawn f) (Frame.random_spawn f)
              (GravityRunner.gameState (physicsStep f c))) as (_ & E2 & _).
  cbn in E2. rewrite E2. unfold physicsStep, trackDistanceAndTime. cbn.
  rewrite handleGravityFlip_keys. now destruct (_ =? _)%Z.
Qed.

(** The player that leaves the flip block, field by field. *)
Lemma handleGravityFlip_player f st :
  let p := GameState.player st in
  GameState.player (handleGravityFlip f st) =
    if Keys.space (GameState.keys st) && negb (Player.isFlipping p) then
      Player.Build (Player.x p) (Player.y p) (Player.width p) (Player.height p)
        (if negb (Player.gravityFlipped p) then JUMP_FORCE else nneg JUMP_FORCE)
        (Player.onGround p) (negb (Player.gravityFlipped p)) true (Frame.now_flip f)
    else p.
Proof.
  unfold handleGravityFlip. cbn zeta. destruct (_ && _); [|reflexivity].
  now rewrite createParticles_player.
Qed.

(** [createParticles] writes [particles] only. *)
Lemma createParticles_frame x y now random st :
  let st' := createParticles x y now random st in
  GameState.obstacles st' = GameState.obstacles st /\
  GameState.gameSpeed st' = GameState.gameSpeed st /\
  GameState.lastObstacleTime st' = GameState.lastObstacleTime st /\
  GameState.distance st' = GameState.distance st /\
  GameState.startTime st' = GameState.startTime st.
Proof.
  unfold createParticles.
  apply (fold_left_inv (fun s =>
    GameState.obstacles s = GameState.obstacles st /\
    GameState.gameSpeed s = GameState.gameSpeed st /\
    GameState.lastObstacleTime s = GameState.lastObstacleTime st /\
    GameState.distance s = GameState.distance st /\
    GameState.startTime s = GameState.startTime st)); [|now repeat split].
  intros s a Hs. exact Hs.
Qed.

(** The flip block writes the player and [particles] only. *)
Lemma handleGravityFlip_frame f st :
  let st' := handleGravityFlip f st in
  GameState.obstacles st' = GameState.obstacles st /\
  GameState.gameSpeed st' = GameState.gameSpeed st /\
  GameState.lastObstacleTime st' = GameState.lastObstacleTime st /\
  GameState.score st' = GameState.score st /\
  GameState.distance st' = GameState.distance st.
Proof.
  unfold handleGravityFlip. cbn zeta. destruct (_ && _); [|now repeat split].
  rewrite createParticles_score.
  match goal with
  | |- context [createParticles ?x ?y ?n ?r ?s] =>
      destruct (createParticles_frame x y n r s) as (E1 & E2 & E3 & E4 & _)
  end.
  cbn zeta in *. rewrite E1, E2, E3, E4. now repeat split.
Qed.

(** What the blocks up to the ground/ceiling collision do to the rest of
    the game state: the distance grows by the speed, nothing else moves. *)
Lemma physicsStep_frame f c :
  let st := GravityRunner.gameState c in
  let st' := GravityRunner.gameState (physicsStep f c) in
  GameState.obstacles st' = GameState.obstacles st /\
  GameState.gameSpeed st' = GameState.gameSpeed st /\
  GameState.lastObstacleTime st' = GameState.lastObstacleTime st /\
  GameState.score st' = GameState.score st /\
  GameState.distance st' = nadd (GameState.distance st) (GameState.gameSpeed st) /\
  GravityRunner.highScore (physicsStep f c) = GravityRunner.highScore c /\
  GravityRunner.localStorage (physicsStep f c) = GravityRunner.localStorage c /\
  GravityRunner.gameOver (physicsStep f c) = GravityRunner.gameOver c /\
  GravityRunner.gameStarted (physicsStep f c) = GravityRunner.gameStarted c.
Proof.
  unfold physicsStep, trackDistanceAndTime. cbn.
  match goal with
  | |- context [handleGravityFlip f ?s] =>
      destruct (handleGravityFlip_frame f s) as (E1 & E2 & E3 & E4 & E5)
  end.
  cbn zeta in *. rewrite E1, E2, E3, E4, E5.
  destruct (_ =? _)%Z; now repeat split.
Qed.

(** The player that leaves the ground/ceiling block. *)
Lemma physicsStep_player f c :
  let p := GameState.player (GravityRunner.gameState c) in
  GameState.player (GravityRunner.gameState (physicsStep f c)) =
    groundCeilingCollision (applyGravity (updateFlipAnimation f
      (if Keys.space (GameState.keys (GravityRunner.gameState c))
          && negb (Player.isFlipping p)
       then
         Player.Build (Player.x p) (Player.y p) (Player.width p) (Player.height p)
           (if negb (Player.gravityFlipped p) then JUMP_FORCE else nneg JUMP_FORCE)
           (Player.onGround p) (negb (Player.gravityFlipped p)) true (Frame.now_flip f)
       else p))).
Proof.
  unfold physicsStep, trackDistanceAndTime. cbn.
  rewrite handleGravityFlip_player. cbn.
  replace (GameState.player (if (_ =? 0)%Z then _ else _))
    with (GameState.player (GravityRunner.gameState c))
    by now destruct (_ =? _)%Z.
  replace (GameState.keys (if (_ =? 0)%Z then _ else _))
    with (GameState.keys (GravityRunner.gameState c))
    by now destruct (_ =? _)%Z.
  reflexivity.
Qed.

End Frame_lemmas.

(** C10. In every frame update the physics step leaves the player's
    [x], [width] and [height] as they were; of the player's fields only
    [y], [velocityY], [onGround], [gravityFlipped], [isFlipping] and
    [flipStartTime] can differ afterwards.  This holds in any arithmetic. *)
Theorem updateGame_player_frame :
  forall (num : Type) (N : Number num) (f : Frame.t num) (c : GravityRunner.t num),
    let p := GameState.player (GravityRunner.gameState c) in
    let p' := GameState.player (GravityRunner.gameState (updateGame f c)) in
    Player.x p' = Player.x p /\
    Player.width p' = Player.width p /\
    Player.height p' = Player.height p.
Proof.
  intros num N f c p p'. subst p'. rewrite updateGame_player.
  unfold physicsStep, trackDistanceAndTime. cbn.
  rewrite handleGravityFlip_player. cbn.
  replace (GameState.player (if (_ =? 0)%Z then _ else _)) with p
    by now destruct (_ =? _)%Z.
  replace (GameState.keys (if (_ =? 0)%Z then _ else _))
    with (GameState.keys (GravityRunner.gameState c))
    by now destruct (_ =? _)%Z.
  unfold groundCeilingCollision, applyGravity, updateFlipAnimation.
  destruct (Keys.space _ && negb (Player.isFlipping p)); cbn;
    repeat match goal with
    | |- context [if ?b then _ else _] => destruct b; cbn
    end; now repeat split.
Qed.

Section Spawn_lemmas.
Context {num : Type} `{Number num}.

Lemma spawns_set_lastObstacleTime (P : Obstacle.t num -> Prop) now st st' :
  spawns P st st' -> spawns P st (GameState.set_lastObstacleTime now st').
Proof. intros (added & E & F). exists added. now split. Qed.

(** Whatever holds of the obstacles each of the four patterns pushes holds
    of the obstacles [createObstacle] pushes. *)
Lemma createObstacle_spawns (P : Obstacle.t num -> Prop) now random st :
  let rest := fun i => random (S i) in
  spawns P st (createSingleObstacle now rest st) ->
  spawns P st (createDoubleObstacle now st) ->
  spawns P st (createNarrowGap now rest st) ->
  spawns P st (createSpikePattern now rest st) ->
  spawns P st (createObstacle now random st).
Proof.
  intros rest H1 H2 H3 H4. unfold createObstacle.
  destruct (_ <? _)%Z; [apply spawns_refl|].
  apply spawns_set_lastObstacleTime. fold rest.
  destruct (Math_floor _) as [|[p|p|]|p]; try assumption;
    destruct p as [p|p|]; assumption.
Qed.

Lemma createSpikePattern_spawns (P : Obstacle.t num -> Prop) id random st :
  (forall i s, spawns P s (createSpike id random s i)) ->
  spawns P st (createSpikePattern id random st).
Proof.
  intros Hs. unfold createSpikePattern. apply spawns_fold. intros; apply Hs.
Qed.

End Spawn_lemmas.

(** ** Exact arithmetic *)

Ltac Qconsts :=
  repeat match goal with
  | |- context [inject_Z (Zpos ?p)] => change (inject_Z (Zpos p)) with (Zpos p # 1)%Q
  | |- context [inject_Z (Zneg ?p)] => change (inject_Z (Zneg p)) with (Zneg p # 1)%Q
  | |- context [inject_Z Z0] => change (inject_Z Z0) with 0%Q
  | H : context [inject_Z (Zpos ?p)] |- _ =>
      change (inject_Z (Zpos p)) with (Zpos p # 1)%Q in H
  | H : context [inject_Z (Zneg ?p)] |- _ =>
      change (inject_Z (Zneg p)) with (Zneg p # 1)%Q in H
  | H : context [inject_Z Z0] |- _ => change (inject_Z Z0) with 0%Q in H
  end.

Ltac exact_arith :=
  cbv [ofZ dec nadd nsub nmul ndiv nneg nlt nle Math_max Math_min Math_floor exact] in *;
  Qconsts.

Lemma Qltb_true (a b : Q) : Qltb a b = true <-> (a < b)%Q.
Proof.
  unfold Qltb. rewrite negb_true_iff. split.
  - intros E. apply Qnot_le_lt. intros L. apply Qle_bool_iff in L. congruence.
  - intros L. destruct (Qle_bool b a) eqn:E; [|reflexivity].
    apply Qle_bool_iff in E. exfalso. apply (Qlt_not_le _ _ L E).
Qed.

Lemma Qltb_false (a b : Q) : Qltb a b = false <-> (b <= a)%Q.
Proof.
  unfold Qltb. rewrite negb_false_iff. apply Qle_bool_iff.
Qed.

Lemma Qle_bool_false (a b : Q) : Qle_bool a b = false <-> (b < a)%Q.
Proof.
  split.
  - intros E. apply Qnot_le_lt. intros L. apply Qle_bool_iff in L. congruence.
  - intros L. destruct (Qle_bool a b) eqn:E; [|reflexivity].
    apply Qle_bool_iff in E. exfalso. apply (Qlt_not_le _ _ L E).
Qed.

Lemma inject_Z_nonneg (z : Z) : (0 <= z)%Z -> (0 <= inject_Z z)%Q.
Proof. intros Hz. change 0%Q with (inject_Z 0). now rewrite <- Zle_Qle. Qed.

(** C9. Whatever the pattern and the draws, every obstacle is spawned with
    [x] at least the canvas width, and the canvas width is strictly to the
    right of the player's spawn column ([x = 0.15 * 360], width 25): no
    obstacle spawns over the player's column. *)
Theorem obstacles_spawn_right_of_player :
  forall (now : Z) (random : nat -> Q) (st : GameState.t Q) (c0 : GravityRunner.t Q),
    let player := GameState.player (GravityRunner.gameState (startGame c0)) in
    (canvasSize_width == 360)%Q /\
    (Player.x player == (15 # 100) * 360)%Q /\
    (Player.width player == 25)%Q /\
    (Player.x player + Player.width player < canvasSize_width)%Q /\
    exists added,
      GameState.obstacles (createObstacle now random st) = GameState.obstacles st ++ added /\
      Forall (fun o =>
                (canvasSize_width <= Obstacle.x o)%Q /\
                (Player.x player + Player.width player < Obstacle.x o)%Q) added.
Proof.
  intros now random st c0 player.
  assert (Hp : (Player.x player + Player.width player < canvasSize_width)%Q)
    by (subst player; unfold startGame; cbn; exact_arith; reflexivity).
  split; [reflexivity|].
  split; [subst player; unfold startGame; cbn; exact_arith; reflexivity|].
  split; [reflexivity|]. split; [exact Hp|].
  assert (Hx : forall o : Obstacle.t Q,
    (canvasSize_width <= Obstacle.x o)%Q ->
    (canvasSize_width <= Obstacle.x o)%Q /\
    (Player.x player + Player.width player < Obstacle.x o)%Q).
  { intros o Ho. split; [exact Ho|]. eapply Qlt_le_trans; eassumption. }
  change (spawns (fun o =>
                (canvasSize_width <= Obstacle.x o)%Q /\
                (Player.x player + Player.width player < Obstacle.x o)%Q)
            st (createObstacle now random st)).
  apply createObstacle_spawns.
  - unfold createSingleObstacle. apply spawns_push, Hx. cbn. apply Qle_refl.
  - unfold createDoubleObstacle.
    eapply spawns_trans; apply spawns_push, Hx; cbn; apply Qle_refl.
  - unfold createNarrowGap.
    eapply spawns_trans; apply spawns_push, Hx; cbn; apply Qle_refl.
  - apply createSpikePattern_spawns. intros i s. unfold createSpike.
    apply spawns_push, Hx. cbn. exact_arith. unfold canvasSize_width. exact_arith.
    pose proof (inject_Z_nonneg (Z.of_nat i) (Nat2Z.is_nonneg i)) as Hi.
    unfold inject_Z in *. nra.
Qed.

(** The widths are literals: 20, 25 or 12 (any arithmetic). *)
Lemma createObstacle_widths {num : Type} `{Number num}
  (now : Z) (random : nat -> num) (st : GameState.t num) :
  spawns (fun o => Obstacle.width o = ofZ 20 \/ Obstacle.width o = ofZ 25
                   \/ Obstacle.width o = ofZ 12)
    st (createObstacle now random st).
Proof.
  apply createObstacle_spawns.
  - unfold createSingleObstacle. apply spawns_push. now left.
  - unfold createDoubleObstacle. eapply spawns_trans; apply spawns_push; now left.
  - unfold createNarrowGap. eapply spawns_trans; apply spawns_push; right; now left.
  - apply createSpikePattern_spawns. intros i s. unfold createSpike.
    apply spawns_push. right; now right.
Qed.




(** ** The obstacle generator *)

Lemma Qfloor_eq_iff (x : Q) (k : Z) :
  Qfloor x = k <-> (inject_Z k <= x)%Q /\ (x < inject_Z (k + 1))%Q.
Proof.
  split.
  - intros <-. split; [apply Qfloor_le | apply Qlt_floor].
  - intros [Hl Hu].
    assert (k <= Qfloor x)%Z
      by (rewrite <- (Qfloor_Z k); now apply Qfloor_resp_le).
    assert (Qfloor x < k + 1)%Z
      by (rewrite Zlt_Qlt; eapply Qle_lt_trans; [apply Qfloor_le | exact Hu]).
    lia.
Qed.

Lemma getObstacleVariety_range (score : Z) :
  (0 <= score)%Z ->
  (1 <= getObstacleVariety (getDifficultyLevel score) <= 4)%Z.
Proof.
  intros Hs. unfold getObstacleVariety, getDifficultyLevel.
  assert (0 <= score / 100 / 2)%Z by (apply Z.div_pos; [apply Z.div_pos|]; lia).
  lia.
Qed.




(** ** Speed scaling *)

(** The last block of [updateGame], read off the state it leaves (any
    arithmetic). *)
Lemma updateGame_gameSpeed {num : Type} `{Number num} (f : Frame.t num) (c : GravityRunner.t num) :
  let st' := GravityRunner.gameState (updateGame f c) in
  GameState.gameSpeed st' =
    Math_min (ofZ 12)
      (nmul (ofZ 4)
         (nadd (nadd (ofZ 1) (nmul (ofZ (getDifficultyLevel (GameState.score st'))) (dec 3 10)))
               (nmul (GameState.distance st') (dec 1 10000)))).
Proof. unfold updateGame, updateSpeed. reflexivity. Qed.

Lemma handle_gameSpeed_le_12 (c : GravityRunner.t Q) (e : Event Q) :
  (GameState.gameSpeed (GravityRunner.gameState c) <= 12)%Q ->
  (GameState.gameSpeed (GravityRunner.gameState (handle c e)) <= 12)%Q.
Proof.
  intros Hc.
  assert (Hstart : (GameState.gameSpeed (GravityRunner.gameState (startGame c)) <= 12)%Q)
    by (unfold startGame; cbn; exact_arith; unfold inject_Z; lra).
  destruct e; cbn.
  - unfold handleKeyDown.
    destruct (GravityRunner.gameStarted c), (GravityRunner.gameOver c); cbn; assumption.
  - exact Hc.
  - unfold handleTouch.
    destruct (GravityRunner.gameStarted c), (GravityRunner.gameOver c); cbn; assumption.
  - exact Hc.
  - exact Hstart.
  - unfold gameLoop. destruct (_ && _); [|exact Hc].
    rewrite updateGame_gameSpeed. exact_arith. apply Q.le_min_l.
Qed.

(** C5. At the end of every frame update the game speed is
    [min(12, 4 * (1 + 0.3 * level + 0.0001 * distance))], [level] being
    [floor(score / 100)]; hence between the ends of any two frames with
    [level] and [distance] not lower at the second, the speed is not lower
    either; and in every state the component can reach the speed is at
    most 12. *)
Theorem gameSpeed_formula_monotone_bounded :
  (forall (f : Frame.t Q) (c : GravityRunner.t Q),
     let st' := GravityRunner.gameState (updateGame f c) in
     let level := (GameState.score st' / 100)%Z in
     (GameState.gameSpeed st' ==
        Qmin 12 (4 * (1 + (3 # 10) * inject_Z level + (1 # 10000) * GameState.distance st')))%Q) /\
  (forall (f1 f2 : Frame.t Q) (c1 c2 : GravityRunner.t Q),
     let st1 := GravityRunner.gameState (updateGame f1 c1) in
     let st2 := GravityRunner.gameState (updateGame f2 c2) in
     (getDifficultyLevel (GameState.score st1) <= getDifficultyLevel (GameState.score st2))%Z ->
     (GameState.distance st1 <= GameState.distance st2)%Q ->
     (GameState.gameSpeed st1 <= GameState.gameSpeed st2)%Q) /\
  (forall (ls : gmap string string) (es : list (Event Q)),
     (GameState.gameSpeed (GravityRunner.gameState (run (mount ls) es)) <= 12)%Q).
Proof.
  split; [|split].
  - intros f c st' level. subst st'. rewrite updateGame_gameSpeed. exact_arith.
    fold level. unfold getDifficultyLevel. fold level.
    apply Q.min_compat; [reflexivity|]. ring.
  - intros f1 f2 c1 c2 st1 st2 Hl Hd. subst st1 st2.
    rewrite !updateGame_gameSpeed. exact_arith.
    rewrite Zle_Qle in Hl.
    apply Q.min_le_compat_l. lra.
  - intros ls es. unfold run.
    apply (fold_left_inv (fun c => (GameState.gameSpeed (GravityRunner.gameState c) <= 12)%Q)).
    + intros s a. apply handle_gameSpeed_le_12.
    + unfold mount. cbn. exact_arith. unfold inject_Z. lra.
Qed.

Lemma gameSpeed_formula_monotone_bounded_witness :
  let f := frameAt half 2000 in
  let st1 := GravityRunner.gameState (updateGame f fresh) in
  let st2 := GravityRunner.gameState (updateGame f (updateGame f fresh)) in
  (getDifficultyLevel (GameState.score st1) <= getDifficultyLevel (GameState.score st2))%Z /\
  (GameState.distance st1 <= GameState.distance st2)%Q /\
  (GameState.gameSpeed st1 <= GameState.gameSpeed st2)%Q.
Proof.
  intros f st1 st2.
  assert (Hl : (getDifficultyLevel (GameState.score st1)
                <= getDifficultyLevel (GameState.score st2))%Z)
    by (vm_compute; discriminate).
  assert (Hd : (GameState.distance st1 <= GameState.distance st2)%Q)
    by (vm_compute; discriminate).
  split; [exact Hl|]. split; [exact Hd|].
  exact (proj1 (proj2 gameSpeed_formula_monotone_bounded) f f fresh (updateGame f fresh) Hl Hd).
Defined.

(** ** Scoring *)

Section Scoring_lemmas.
Context {num : Type} `{Number num}.

Lemma obstacleStep_score hs c o :
  let speed := GameState.gameSpeed (GravityRunner.gameState c) in
  let r := obstacleStep hs c o in
  GameState.score (GravityRunner.gameState (fst r)) =
    (if passed speed o then GameState.score (GravityRunner.gameState c) + 10
     else GameState.score (GravityRunner.gameState c))%Z /\
  (if passed speed o then snd r = None
   else snd r = None \/
        snd r = Some (Obstacle.set_x (nsub (Obstacle.x o) speed) o)).
Proof.
  unfold obstacleStep, passed. cbn.
  destruct (nlt _ _); [now split|].
  destruct (checkCollision _ _); [|split; [reflexivity | now right]].
  destruct (score_gt _ _); split; (reflexivity || now left).
Qed.

Lemma filterWith_obstacleStep hs l :
  forall c,
    let speed := GameState.gameSpeed (GravityRunner.gameState c) in
    let r := filterWith (obstacleStep hs) c l in
    GameState.score (GravityRunner.gameState (fst r)) =
      (GameState.score (GravityRunner.gameState c)
       + 10 * Z.of_nat (length (List.filter (passed speed) l)))%Z /\
    Forall (fun o' => exists o, In o l /\ passed speed o = false /\
                                o' = Obstacle.set_x (nsub (Obstacle.x o) speed) o) (snd r).
Proof.
  induction l as [|a l IH]; intros c; cbn zeta.
  - cbn. split; [lia | constructor].
  - cbn [filterWith List.filter].
    destruct (obstacleStep_score hs c a) as [Hsc Hk].
    destruct (obstacleStep_frame hs c a) as (_ & _ & Hsp & _).
    destruct (obstacleStep hs c a) as [c1 keep]. cbn [fst snd] in *.
    specialize (IH c1). cbn zeta in IH. rewrite Hsp in IH.
    destruct (filterWith (obstacleStep hs) c1 l) as [c2 rest]. cbn [fst snd] in *.
    destruct IH as [IHs IHk].
    assert (Hrest : Forall (fun o' => exists o, In o (a :: l) /\
              passed (GameState.gameSpeed (GravityRunner.gameState c)) o = false /\
              o' = Obstacle.set_x
                     (nsub (Obstacle.x o) (GameState.gameSpeed (GravityRunner.gameState c))) o)
              rest).
    { eapply List.Forall_impl; [|exact IHk]. intros o' (o & Hin & Hp & ->).
      exists o. split; [now right | now split]. }
    destruct (passed _ a) eqn:Hpa.
    + subst keep. split; [rewrite IHs, Hsc; cbn [length]; lia | exact Hrest].
    + split; [rewrite IHs, Hsc; lia|].
      destruct Hk as [-> | ->]; [exact Hrest|].
      constructor; [|exact Hrest]. exists a. split; [now left | now split].
Qed.

End Scoring_lemmas.

Lemma updateGame_obstacles_score {num : Type} `{Number num}
  (f : Frame.t num) (c : GravityRunner.t num) :
  let speed := GameState.gameSpeed (GravityRunner.gameState c) in
  let visited :=
    GameState.obstacles
      (createObstacle (Frame.now_spawn f) (Frame.random_spawn f)
         (GravityRunner.gameState (physicsStep f c))) in
  let st' := GravityRunner.gameState (updateGame f c) in
  GameState.score st' =
    (GameState.score (GravityRunner.gameState c)
     + 10 * Z.of_nat (length (List.filter (passed speed) visited)))%Z /\
  Forall (fun o' => exists o, In o visited /\ passed speed o = false /\
                              o' = Obstacle.set_x (nsub (Obstacle.x o) speed) o)
         (GameState.obstacles st').
Proof.
  cbn zeta. unfold updateGame, updateSpeed, updateParticles, updateObstacles. cbn.
  set (pre := createObstacle _ _ _).
  destruct (createObstacle_frame (Frame.now_spawn f) (Frame.random_spawn f)
              (GravityRunner.gameState (physicsStep f c))) as (_ & _ & Hsc & Hsp & _).
  destruct (physicsStep_frame f c) as (_ & Hsp' & _ & Hsc' & _).
  cbn zeta in *. fold pre in Hsc, Hsp.
  pose proof (filterWith_obstacleStep (GravityRunner.highScore (physicsStep f c))
                (GameState.obstacles pre)
                (GravityRunner.set_gameState pre (physicsStep f c))) as Hf.
  cbn in Hf. rewrite Hsc, Hsp, Hsc', Hsp' in Hf.
  destruct (filterWith _ _ _) as [c1 kept]. exact Hf.
Qed.

(** C4. In every frame update the callback of the obstacle filter adds to
    the score exactly when the obstacle's trailing edge is left of the
    boundary after the frame's movement ([x - speed + width < 0]); it then
    adds exactly 10 and drops the obstacle, and otherwise leaves the score
    alone.  So a frame adds 10 for each obstacle it clears and nothing else,
    the score never decreases, and no obstacle that is kept has passed the
    boundary. *)
Theorem cleared_obstacles_score_ten :
  forall (f : Frame.t Q) (c : GravityRunner.t Q),
    let speed := GameState.gameSpeed (GravityRunner.gameState c) in
    let visited :=
      GameState.obstacles
        (createObstacle (Frame.now_spawn f) (Frame.random_spawn f)
           (GravityRunner.gameState (physicsStep f c))) in
    let st' := GravityRunner.gameState (updateGame f c) in
    (forall o, passed speed o = true <->
               (Obstacle.x o - speed + Obstacle.width o < 0)%Q) /\
    (forall hs c0 o,
       let r := obstacleStep hs c0 o in
       let score0 := GameState.score (GravityRunner.gameState c0) in
       let score1 := GameState.score (GravityRunner.gameState (fst r)) in
       if passed (GameState.gameSpeed (GravityRunner.gameState c0)) o
       then score1 = (score0 + 10)%Z /\ snd r = None
       else score1 = score0) /\
    GameState.score st' =
      (GameState.score (GravityRunner.gameState c)
       + 10 * Z.of_nat (length (List.filter (passed speed) visited)))%Z /\
    (GameState.score (GravityRunner.gameState c) <= GameState.score st')%Z /\
    Forall (fun o' => exists o, In o visited /\
                                ~ (Obstacle.x o - speed + Obstacle.width o < 0)%Q /\
                                o' = Obstacle.set_x (Obstacle.x o - speed)%Q o)
           (GameState.obstacles st').
Proof.
  intros f c speed visited st'.
  assert (Hp : forall o, passed speed o = true <->
                         (Obstacle.x o - speed + Obstacle.width o < 0)%Q).
  { intros o. unfold passed. exact_arith. apply Qltb_true. }
  destruct (updateGame_obstacles_score f c) as [Hs Hk]. fold speed visited st' in Hs, Hk.
  split; [exact Hp|]. split; [|split; [exact Hs|split; [lia|]]].
  - intros hs c0 o. cbn zeta. destruct (obstacleStep_score hs c0 o) as [E1 E2].
    cbn zeta in *. destruct (passed _ o); [split|]; assumption.
  - eapply List.Forall_impl; [|exact Hk]. intros o' (o & Hin & Hpo & ->).
    exists o. split; [exact Hin|]. split; [|reflexivity].
    rewrite <- Hp, Hpo. discriminate.
Qed.

(** ** The player stays between ceiling and ground *)

Ltac Qbools :=
  repeat match goal with
  | H : Qle_bool _ _ = true |- _ => apply Qle_bool_iff in H
  | H : Qle_bool _ _ = false |- _ => apply Qle_bool_false in H
  | H : Qltb _ _ = true |- _ => apply Qltb_true in H
  | H : Qltb _ _ = false |- _ => apply Qltb_false in H
  end.

Lemma physicsStep_settled (f : Frame.t Q) (c : GravityRunner.t Q) :
  settled (GameState.player (GravityRunner.gameState c)) ->
  settled (GameState.player (GravityRunner.gameState (physicsStep f c))).
Proof.
  rewrite physicsStep_player.
  destruct (GameState.player (GravityRunner.gameState c))
    as [x y w h v onG flipped flipping start].
  unfold settled, inBand. cbn. intros ((Hc & Hg) & Hup & Hdown).
  unfold groundCeilingCollision, applyGravity, updateFlipAnimation,
    getGroundY, getCeilingY, canvasSize_height, GRAVITY, JUMP_FORCE in *.
  destruct (Keys.space _ && negb flipping); cbn;
    destruct flipped; cbn;
    repeat match goal with
    | |- context [if ?b then _ else _] => destruct b eqn:?; cbn in *
    end;
    exact_arith; Qbools;
    try (specialize (Hup eq_refl)); try (specialize (Hdown eq_refl));
    (repeat split; try discriminate; intros; lra).
Qed.

Lemma startGame_settled (c : GravityRunner.t Q) :
  settled (GameState.player (GravityRunner.gameState (startGame c))).
Proof.
  unfold startGame, settled, inBand, getGroundY, getCeilingY, canvasSize_height,
    getPlayerSize. cbn. exact_arith.
  repeat split; try discriminate; intros; lra.
Qed.

Lemma handle_settled (c : GravityRunner.t Q) (e : Event Q) :
  settled (GameState.player (GravityRunner.gameState c)) ->
  settled (GameState.player (GravityRunner.gameState (handle c e))).
Proof.
  intros Hc. pose proof (startGame_settled c) as Hstart.
  destruct e; cbn.
  - unfold handleKeyDown.
    destruct (GravityRunner.gameStarted c), (GravityRunner.gameOver c); cbn; assumption.
  - exact Hc.
  - unfold handleTouch.
    destruct (GravityRunner.gameStarted c), (GravityRunner.gameOver c); cbn; assumption.
  - exact Hc.
  - exact Hstart.
  - unfold gameLoop. destruct (_ && _); [|exact Hc].
    rewrite updateGame_player. now apply physicsStep_settled.
Qed.

(** C3. Start a game and let anything happen: key presses and releases,
    taps, restarts and frames, in any order and at any clock readings.  In
    every state so reached, and after the ground/ceiling block of every
    further physics step, [ceilingY <= player.y] and
    [player.y + player.height <= groundY]. *)
Theorem player_stays_in_band :
  forall (c0 : GravityRunner.t Q) (es : list (Event Q)) (f : Frame.t Q),
    let c := run (startGame c0) es in
    let p := GameState.player (GravityRunner.gameState c) in
    let p' := GameState.player (GravityRunner.gameState (physicsStep f c)) in
    ((getCeilingY <= Player.y p)%Q /\ (Player.y p + Player.height p <= getGroundY)%Q) /\
    ((getCeilingY <= Player.y p')%Q /\ (Player.y p' + Player.height p' <= getGroundY)%Q) /\
    p' = GameState.player (GravityRunner.gameState (updateGame f c)).
Proof.
  intros c0 es f c p p'.
  assert (Hc : settled p).
  { subst p c. unfold run.
    apply (fold_left_inv (fun c => settled (GameState.player (GravityRunner.gameState c)))).
    - intros s a. apply handle_settled.
    - apply startGame_settled. }
  split; [exact (proj1 Hc)|]. split.
  - exact (proj1 (physicsStep_settled f c Hc)).
  - subst p'. symmetry. apply updateGame_player.
Qed.

(** ** Gravity flips *)

(** What one frame does to the orientation and to the flip animation. *)
Lemma updateGame_flip {num : Type} `{Number num} (f : Frame.t num) (c : GravityRunner.t num) :
  let p := GameState.player (GravityRunner.gameState c) in
  let p' := GameState.player (GravityRunner.gameState (updateGame f c)) in
  let flip := Keys.space (GameState.keys (GravityRunner.gameState c))
              && negb (Player.isFlipping p) in
  Player.gravityFlipped p' =
    (if flip then negb (Player.gravityFlipped p) else Player.gravityFlipped p) /\
  Player.flipStartTime p' =
    (if flip then Frame.now_flip f else Player.flipStartTime p) /\
  Player.isFlipping p' =
    (if flip then negb (Frame.now_anim f - Frame.now_flip f >? 300)%Z
     else Player.isFlipping p
          && negb (Frame.now_anim f - Player.flipStartTime p >? 300)%Z).
Proof.
  cbn zeta. rewrite updateGame_player, physicsStep_player.
  destruct (GameState.player (GravityRunner.gameState c))
    as [x y w h v onG flipped flipping start].
  unfold groundCeilingCollision, applyGravity, updateFlipAnimation. cbn.
  destruct (Keys.space _), flipping; cbn;
    repeat match goal with
    | |- context [(?a >? 300)%Z] => destruct (a >? 300)%Z; cbn
    end;
    repeat match goal with
    | |- context [if ?b then _ else _] => destruct b; cbn
    end;
    repeat split; reflexivity.
Qed.

Lemma negb_gtb_le (a b : Z) : (a <= b)%Z -> negb (a >? b)%Z = true.
Proof. intros Hab. rewrite Z.gtb_ltb. apply negb_true_iff, Z.ltb_ge. exact Hab. Qed.

Lemma set_space_player {num : Type} `{Number num} (b : bool) (c : GravityRunner.t num) :
  GameState.player (GravityRunner.gameState (set_space b c))
  = GameState.player (GravityRunner.gameState c).
Proof. reflexivity. Qed.

Lemma frames_while_animating {num : Type} `{Number num}
  (l : list (bool * Frame.t num)) :
  forall c : GravityRunner.t num,
    let p := GameState.player (GravityRunner.gameState c) in
    let p' := GameState.player (GravityRunner.gameState (frames c l)) in
    Player.isFlipping p = true ->
    Forall (fun bf => (Frame.now_anim (snd bf) - Player.flipStartTime p <= 300)%Z) l ->
    Player.gravityFlipped p' = Player.gravityFlipped p /\
    Player.flipStartTime p' = Player.flipStartTime p /\
    Player.isFlipping p' = true.
Proof.
  induction l as [|[b f] l IH]; intros c p p' Hflip Hl; [now repeat split|].
  inversion Hl as [|? ? Hf Hl']; subst. subst p p'.
  cbn [frames fold_left fst snd] in *.
  destruct (updateGame_flip f (set_space b c)) as (E1 & E2 & E3). cbn zeta in *.
  rewrite set_space_player, Hflip, andb_false_r in E1, E2, E3. cbn in E3.
  assert (E3' : Player.isFlipping
                  (GameState.player (GravityRunner.gameState (updateGame f (set_space b c))))
                = true)
    by (rewrite E3; now apply negb_gtb_le).
  specialize (IH (updateGame f (set_space b c))). cbn zeta in IH.
  rewrite E1, E2 in IH. apply IH; assumption.
Qed.

(** C1 (amended). A flip is accepted by a frame that begins with the flag
    set and [isFlipping] false; it inverts the orientation and stamps
    [flipStartTime].  From then on, through every frame whose clock reading
    is at most 300 ms after that stamp, [isFlipping] stays set and a further
    request is ignored whatever the flag is: the orientation is not
    inverted again and [flipStartTime] is not reset. *)
Theorem flip_ignored_while_animating :
  forall (num : Type) (N : Number num) (c : GravityRunner.t num) (f0 : Frame.t num)
         (l : list (bool * Frame.t num)),
    let p := GameState.player (GravityRunner.gameState c) in
    let c1 := updateGame f0 c in
    let p1 := GameState.player (GravityRunner.gameState c1) in
    let p2 := GameState.player (GravityRunner.gameState (frames c1 l)) in
    Keys.space (GameState.keys (GravityRunner.gameState c)) = true ->
    Player.isFlipping p = false ->
    (Frame.now_anim f0 - Frame.now_flip f0 <= 300)%Z ->
    Forall (fun bf => (Frame.now_anim (snd bf) - Frame.now_flip f0 <= 300)%Z) l ->
    (Player.gravityFlipped p1 = negb (Player.gravityFlipped p) /\
     Player.flipStartTime p1 = Frame.now_flip f0 /\
     Player.isFlipping p1 = true) /\
    (Player.gravityFlipped p2 = Player.gravityFlipped p1 /\
     Player.flipStartTime p2 = Frame.now_flip f0 /\
     Player.isFlipping p2 = true).
Proof.
  intros num N c f0 l p c1 p1 p2 Hspace Hidle H0 Hl.
  assert (H1 : Player.gravityFlipped p1 = negb (Player.gravityFlipped p) /\
               Player.flipStartTime p1 = Frame.now_flip f0 /\
               Player.isFlipping p1 = true).
  { destruct (updateGame_flip f0 c) as (E1 & E2 & E3). subst p p1 c1. cbn zeta in *.
    rewrite Hspace, Hidle in *. cbn in *. rewrite E1, E2, E3.
    repeat split. now apply negb_gtb_le. }
  split; [exact H1|].
  destruct H1 as (_ & Hstart & Hflip). subst p2. rewrite <- Hstart in Hl |- *.
  now apply frames_while_animating.
Qed.



Lemma flip_ignored_while_animating_witness :
  let c : GravityRunner.t Q := set_space true fresh in
  let f0 := frameAt half 1000 in
  let l := [(true, frameAt half 1016); (true, frameAt half 1300)] in
  let p := GameState.player (GravityRunner.gameState c) in
  let p1 := GameState.player (GravityRunner.gameState (updateGame f0 c)) in
  let p2 := GameState.player (GravityRunner.gameState (frames (updateGame f0 c) l)) in
  (Player.gravityFlipped p1 = negb (Player.gravityFlipped p) /\
   Player.flipStartTime p1 = Frame.now_flip f0 /\
   Player.isFlipping p1 = true) /\
  (Player.gravityFlipped p2 = Player.gravityFlipped p1 /\
   Player.flipStartTime p2 = Frame.now_flip f0 /\
   Player.isFlipping p2 = true).
Proof.
  apply (flip_ignored_while_animating Q exact (set_space true fresh) (frameAt half 1000)
           [(true, frameAt half 1016); (true, frameAt half 1300)]).
  - reflexivity.
  - reflexivity.
  - cbn. lia.
  - repeat constructor; cbn; lia.
Defined.

(** C1 (the claim as stated fails). Space is pressed and the frame at
    1000 ms flips gravity; the key is released and pressed again, and the
    frame at 1016 ms, 16 ms after the first flip, begins with the flag set.
    That frame performs no flip: the orientation is still the flipped one
    and [flipStartTime] is still 1000. *)
Lemma second_flip_within_300ms_is_ignored :
  let c1 : GravityRunner.t Q :=
    run fresh [KeyDownSpace; AnimationFrame (frameAt half 1000)] in
  let c2 := run c1 [KeyUpSpace; KeyDownSpace] in
  let c3 := run c2 [AnimationFrame (frameAt half 1016)] in
  let player c := GameState.player (GravityRunner.gameState c) in
  Player.gravityFlipped (player fresh) = false /\
  Player.gravityFlipped (player c1) = true /\
  Player.flipStartTime (player c1) = 1000%Z /\
  Keys.space (GameState.keys (GravityRunner.gameState c2)) = true /\
  GravityRunner.gameOver c2 = false /\
  Player.gravityFlipped (player c3) = true /\
  Player.flipStartTime (player c3) = 1000%Z.
Proof. cbv zeta. repeat split; vm_compute; reflexivity. Qed.


(** ** The persisted high score *)

(** *** [parseInt] reads back what [toString] wrote *)

Lemma toNumber_safeInteger (z : Z) : safeInteger z -> toNumber z = Integral.Finite z.
Proof.
  unfold safeInteger. intros Hz.
  destruct (Z.eq_dec (Z.abs z) (2 ^ 53)%Z) as [E | E].
  - assert (Hc : z = (2 ^ 53)%Z \/ z = (- 2 ^ 53)%Z) by lia.
    destruct Hc as [-> | ->]; vm_compute; reflexivity.
  - unfold toNumber.
    assert (Hl : (Z.log2 (Z.abs z) + 1 - 53 <= 0)%Z).
    { destruct (Z.eq_dec (Z.abs z) 0%Z) as [E0 | E0]; [rewrite E0; cbn; lia|].
      assert (Z.log2 (Z.abs z) < 53)%Z by (apply Z.log2_lt_pow2; lia). lia. }
    apply Z.leb_le in Hl. rewrite Hl. reflexivity.
Qed.

Lemma digitOf_pretty_N_char (d : N) :
  (d < 10)%N -> digitOf 10 (pretty_N_char d) = Some (Z.of_N d).
Proof.
  intros Hd.
  assert (Hc : (d = 0 \/ d = 1 \/ d = 2 \/ d = 3 \/ d = 4 \/
                d = 5 \/ d = 6 \/ d = 7 \/ d = 8 \/ d = 9)%N) by lia.
  repeat (destruct Hc as [-> | Hc]; [reflexivity|]). subst d. reflexivity.
Qed.

Lemma parseDigits_pretty_N_go (x : N) :
  forall s, (0 < x)%N ->
    parseDigits 10 None (pretty_N_go x s) = parseDigits 10 (Some (Z.of_N x)) s.
Proof.
  induction (N.lt_wf_0 x) as [x _ IH]. intros s Hx.
  rewrite pretty_N_go_step by exact Hx.
  assert (Hm : (x `mod` 10 < 10)%N) by (apply N.mod_lt; discriminate).
  assert (Hx10 : Z.of_N x = (10 * Z.of_N (x `div` 10) + Z.of_N (x `mod` 10))%Z).
  { rewrite (N.div_mod x 10%N) at 1 by discriminate.
    rewrite N2Z.inj_add, N2Z.inj_mul. reflexivity. }
  destruct (N.eq_dec (x `div` 10)%N 0%N) as [E | E].
  - rewrite E in *. rewrite pretty_N_go_0. cbn [parseDigits].
    rewrite digitOf_pretty_N_char by exact Hm. cbn [default].
    rewrite Hx10. reflexivity.
  - rewrite IH; [|apply N.div_lt; [exact Hx | reflexivity] | now apply N.neq_0_lt_0].
    cbn [parseDigits]. rewrite digitOf_pretty_N_char by exact Hm. cbn [default].
    rewrite Hx10. reflexivity.
Qed.

(** A positive number prints with a leading digit from 1 to 9. *)
Lemma pretty_N_go_head (x : N) :
  forall s, (0 < x)%N ->
    exists d r, pretty_N_go x s = String (pretty_N_char d) r /\ (1 <= d <= 9)%N.
Proof.
  induction (N.lt_wf_0 x) as [x _ IH]. intros s Hx.
  rewrite pretty_N_go_step by exact Hx.
  destruct (N.eq_dec (x `div` 10)%N 0%N) as [E | E].
  - rewrite E, pretty_N_go_0. exists (x `mod` 10)%N, s. split; [reflexivity|].
    assert (Hm : (x `mod` 10 < 10)%N) by (apply N.mod_lt; discriminate).
    assert (Hx10 : (x = 10 * (x `div` 10) + x `mod` 10)%N)
      by (apply N.div_mod; discriminate).
    rewrite E, N.mul_0_r, N.add_0_l in Hx10. rewrite <- Hx10 in Hm |- *.
    clear -Hx Hm. lia.
  - apply IH; [apply N.div_lt; [exact Hx | reflexivity] | now apply N.neq_0_lt_0].
Qed.

(** No white space, sign or prefix is read off a string that starts with
    a digit from 1 to 9, and the sign alone off one that starts with a
    minus and such a digit. *)
Lemma parseInt_leading_digit (d : N) (r : string) :
  (1 <= d <= 9)%N ->
  parseInt (String (pretty_N_char d) r)
  = match parseDigits 10 None (String (pretty_N_char d) r) with
    | Some mathInt => toNumber (1 * mathInt)
    | None => Integral.NaN
    end /\
  parseInt (String "-" (String (pretty_N_char d) r))
  = match parseDigits 10 None (String (pretty_N_char d) r) with
    | Some mathInt => toNumber (-1 * mathInt)
    | None => Integral.NaN
    end.
Proof.
  intros Hd.
  assert (Hc : (d = 1 \/ d = 2 \/ d = 3 \/ d = 4 \/
                d = 5 \/ d = 6 \/ d = 7 \/ d = 8 \/ d = 9)%N) by lia.
  repeat (destruct Hc as [-> | Hc]; [split; reflexivity|]).
  subst d. split; reflexivity.
Qed.

Lemma parseInt_pretty (z : Z) : parseInt (pretty z) = toNumber z.
Proof.
  destruct z as [|p|p]; [reflexivity| |].
  - change (pretty (Zpos p)) with (pretty_N_go (Npos p) "").
    destruct (pretty_N_go_head (Npos p) "" eq_refl) as (d & r & E & Hd).
    pose proof (parseDigits_pretty_N_go (Npos p) "" eq_refl) as Hp.
    rewrite E in *. rewrite (proj1 (parseInt_leading_digit d r Hd)), Hp. reflexivity.
  - change (pretty (Zneg p)) with (String "-" (pretty_N_go (Npos p) "")).
    destruct (pretty_N_go_head (Npos p) "" eq_refl) as (d & r & E & Hd).
    pose proof (parseDigits_pretty_N_go (Npos p) "" eq_refl) as Hp.
    rewrite E in *. rewrite (proj2 (parseInt_leading_digit d r Hd)), Hp. reflexivity.
Qed.

(** *** Reading and writing the stored value *)

Lemma readHighScore_absent (ls : gmap string string) :
  ls !! gravityRunnerHighScore = None -> readHighScore ls = Integral.Finite 0.
Proof. intros E. unfold readHighScore, getItem_or. rewrite E. reflexivity. Qed.

Lemma pretty_Z_not_empty (z : Z) : pretty z <> EmptyString.
Proof.
  destruct z as [|p|p]; [discriminate| |discriminate].
  change (pretty (Zpos p)) with (pretty_N_go (Npos p) "").
  destruct (pretty_N_go_head (Npos p) "" eq_refl) as (d & r & E & _).
  rewrite E. discriminate.
Qed.

Lemma readHighScore_insert (ls : gmap string string) (z : Z) :
  readHighScore (<[gravityRunnerHighScore := pretty z]> ls) = toNumber z.
Proof.
  unfold readHighScore, getItem_or. rewrite lookup_insert_eq.
  pose proof (parseInt_pretty z) as E. pose proof (pretty_Z_not_empty z) as Hne.
  destruct (pretty z) as [|a r]; [congruence | exact E].
Qed.

Section HighScore_lemmas.
Context {num : Type} `{Number num}.

(** The three ways out of the filter callback. *)
Lemma obstacleStep_cases hs (c : GravityRunner.t num) o :
  let state := GravityRunner.gameState c in
  let speed := GameState.gameSpeed state in
  let moved := Obstacle.set_x (nsub (Obstacle.x o) speed) o in
  let c' := fst (obstacleStep hs c o) in
  (passed speed o = true /\
   GravityRunner.gameOver c' = GravityRunner.gameOver c /\
   GravityRunner.highScore c' = GravityRunner.highScore c /\
   GravityRunner.localStorage c' = GravityRunner.localStorage c) \/
  (passed speed o = false /\ checkCollision (GameState.player state) moved = true /\
   GravityRunner.gameOver c' = true /\
   if score_gt (GameState.score state) hs
   then GravityRunner.highScore c' = Integral.Finite (GameState.score state) /\
        GravityRunner.localStorage c' =
          <[gravityRunnerHighScore := pretty (GameState.score state)]>
            (GravityRunner.localStorage c)
   else GravityRunner.highScore c' = GravityRunner.highScore c /\
        GravityRunner.localStorage c' = GravityRunner.localStorage c) \/
  (passed speed o = false /\ checkCollision (GameState.player state) moved = false /\
   c' = c).
Proof.
  unfold obstacleStep, passed. cbn.
  destruct (nlt _ _); [left; now repeat split|]. right.
  destruct (checkCollision _ _); [left | right; now repeat split].
  destruct (score_gt _ _); now repeat split.
Qed.

(** The callback on an obstacle that hits the player, and on one that does
    not. *)
Lemma obstacleStep_hit hs (c : GravityRunner.t num) o :
  let state := GravityRunner.gameState c in
  let c' := fst (obstacleStep hs c o) in
  hits (GameState.player state) (GameState.gameSpeed state) o = true ->
  GameState.score (GravityRunner.gameState c') = GameState.score state /\
  GravityRunner.gameOver c' = true /\
  if score_gt (GameState.score state) hs
  then GravityRunner.highScore c' = Integral.Finite (GameState.score state) /\
       GravityRunner.localStorage c' =
         <[gravityRunnerHighScore := pretty (GameState.score state)]>
           (GravityRunner.localStorage c)
  else GravityRunner.highScore c' = GravityRunner.highScore c /\
       GravityRunner.localStorage c' = GravityRunner.localStorage c.
Proof.
  cbn zeta. unfold hits. intros Hh. apply andb_true_iff in Hh as [Hp Hc].
  apply negb_true_iff in Hp.
  destruct (obstacleStep_score hs c o) as [Es _]. cbn zeta in Es. rewrite Hp in Es.
  destruct (obstacleStep_cases hs c o) as [(E & _) | [(_ & _ & Ho & Hw) | (_ & E & _)]];
    cbn zeta in *; [congruence | | congruence].
  split; [exact Es|]. split; [exact Ho | exact Hw].
Qed.

Lemma obstacleStep_miss hs (c : GravityRunner.t num) o :
  let state := GravityRunner.gameState c in
  let c' := fst (obstacleStep hs c o) in
  hits (GameState.player state) (GameState.gameSpeed state) o = false ->
  GravityRunner.gameOver c' = GravityRunner.gameOver c /\
  GravityRunner.highScore c' = GravityRunner.highScore c /\
  GravityRunner.localStorage c' = GravityRunner.localStorage c.
Proof.
  cbn zeta. unfold hits. intros Hh.
  destruct (obstacleStep_cases hs c o)
    as [(_ & E1 & E2 & E3) | [(Hp & Hc & _) | (_ & _ & E)]]; cbn zeta in *.
  - now repeat split.
  - rewrite Hp, Hc in Hh. discriminate Hh.
  - rewrite E. now repeat split.
Qed.

Lemma filterWith_obstacleStep_misses hs l :
  forall c : GravityRunner.t num,
    let state := GravityRunner.gameState c in
    let c' := fst (filterWith (obstacleStep hs) c l) in
    existsb (hits (GameState.player state) (GameState.gameSpeed state)) l = false ->
    GravityRunner.gameOver c' = GravityRunner.gameOver c /\
    GravityRunner.highScore c' = GravityRunner.highScore c /\
    GravityRunner.localStorage c' = GravityRunner.localStorage c.
Proof.
  induction l as [|a l IH]; intros c; cbn zeta; [now repeat split|].
  cbn [existsb filterWith]. intros Hh. apply orb_false_iff in Hh as [Ha Hl].
  destruct (obstacleStep_miss hs c a Ha) as (E1 & E2 & E3).
  destruct (obstacleStep_frame hs c a) as (Ep & _ & Es & _).
  destruct (obstacleStep hs c a) as [c1 keep]. cbn [fst snd] in *.
  specialize (IH c1). cbn zeta in IH. rewrite Ep, Es in IH. specialize (IH Hl).
  destruct (filterWith (obstacleStep hs) c1 l) as [c2 rest]. cbn [fst snd] in *.
  destruct IH as (I1 & I2 & I3). rewrite I1, I2, I3. now repeat split.
Qed.

Lemma score_gt_mono (s1 s2 : Z) hs :
  (s1 <= s2)%Z -> score_gt s1 hs = true -> score_gt s2 hs = true.
Proof.
  destruct hs as [|h|b]; cbn; [discriminate| |trivial].
  intros Hle Hlt. apply Z.ltb_lt in Hlt. apply Z.ltb_lt. lia.
Qed.

(** The filter over a list whose last obstacle to hit the player is [o]:
    the score [o] meets is the one the obstacles before it left, and it is
    the one stored if it beats the high score of the closure. *)
Lemma filterWith_obstacleStep_last_hit hs pre o post :
  forall c : GravityRunner.t num,
    let state := GravityRunner.gameState c in
    let player := GameState.player state in
    let speed := GameState.gameSpeed state in
    let score :=
      (GameState.score state + 10 * Z.of_nat (length (List.filter (passed speed) pre)))%Z in
    let c' := fst (filterWith (obstacleStep hs) c (pre ++ o :: post)) in
    hits player speed o = true ->
    existsb (hits player speed) post = false ->
    GravityRunner.gameOver c' = true /\
    if score_gt score hs
    then GravityRunner.highScore c' = Integral.Finite score /\
         GravityRunner.localStorage c' =
           <[gravityRunnerHighScore := pretty score]> (GravityRunner.localStorage c)
    else GravityRunner.highScore c' = GravityRunner.highScore c /\
         GravityRunner.localStorage c' = GravityRunner.localStorage c.
Proof.
  induction pre as [|a pre IH]; intros c; cbn zeta; intros Ho Hpost.
  - cbn [app filterWith List.filter length]. rewrite Z.mul_0_r, Z.add_0_r.
    destruct (obstacleStep_hit hs c o Ho) as (_ & Eo & Hw).
    destruct (obstacleStep_frame hs c o) as (Ep & _ & Es & _).
    destruct (obstacleStep hs c o) as [c1 keep]. cbn [fst snd] in *.
    pose proof (filterWith_obstacleStep_misses hs post c1) as Hm. cbn zeta in Hm.
    rewrite Ep, Es in Hm. specialize (Hm Hpost).
    destruct (filterWith (obstacleStep hs) c1 post) as [c2 rest]. cbn [fst snd] in *.
    destruct Hm as (M1 & M2 & M3). rewrite M1, M2, M3. split; [exact Eo | exact Hw].
  - cbn [app filterWith List.filter].
    destruct (obstacleStep_score hs c a) as [Esc _]. cbn zeta in Esc.
    destruct (obstacleStep_frame hs c a) as (Ep & _ & Es & _).
    pose proof (obstacleStep_cases hs c a) as Hc. cbn zeta in Hc.
    destruct (obstacleStep hs c a) as [c1 keep]. cbn [fst snd] in *.
    specialize (IH c1). cbn zeta in IH. rewrite Ep, Es, Esc in IH.
    specialize (IH Ho Hpost).
    destruct (filterWith (obstacleStep hs) c1 (pre ++ o :: post)) as [c2 rest].
    cbn [fst snd] in *. destruct IH as [IHo IHw]. split; [exact IHo|].
    set (speed := GameState.gameSpeed (GravityRunner.gameState c)) in *.
    set (n := Z.of_nat (length (List.filter (passed speed) pre))) in *.
    assert (Hn : (0 <= n)%Z) by (subst n; lia).
    destruct Hc as [(Hp & _ & E2 & E3) | [(Hp & _ & _ & Hw) | (Hp & _ & E)]];
      rewrite Hp in *; cbn [length].
    + replace (GameState.score (GravityRunner.gameState c)
               + 10 * Z.of_nat (S (length (List.filter (passed speed) pre))))%Z
        with (GameState.score (GravityRunner.gameState c) + 10 + 10 * n)%Z by (subst n; lia).
      rewrite E2, E3 in IHw. exact IHw.
    + fold n. destruct (score_gt (GameState.score (GravityRunner.gameState c)) hs) eqn:Egt.
      * destruct Hw as [E2 E3].
        rewrite (score_gt_mono (GameState.score (GravityRunner.gameState c))
                   (GameState.score (GravityRunner.gameState c) + 10 * n) hs) in *
          by (lia || exact Egt).
        destruct IHw as [I2 I3]. split; [exact I2|].
        rewrite I3, E3. apply insert_insert_eq.
      * destruct Hw as [E2 E3]. rewrite E2, E3 in IHw. exact IHw.
    + fold n. rewrite E in IHw. exact IHw.
Qed.

(** What a frame leaves of the game-over flag, the high score and the
    storage is what the filter callback left. *)
Lemma updateGame_filter f (c : GravityRunner.t num) :
  let c1 :=
    GravityRunner.set_gameState
      (createObstacle (Frame.now_spawn f) (Frame.random_spawn f)
         (GravityRunner.gameState (physicsStep f c))) (physicsStep f c) in
  let c2 :=
    fst (filterWith (obstacleStep (GravityRunner.highScore c)) c1
           (GameState.obstacles (GravityRunner.gameState c1))) in
  GravityRunner.gameOver (updateGame f c) = GravityRunner.gameOver c2 /\
  GravityRunner.highScore (updateGame f c) = GravityRunner.highScore c2 /\
  GravityRunner.localStorage (updateGame f c) = GravityRunner.localStorage c2.
Proof.
  cbn zeta. unfold updateGame, updateObstacles.
  destruct (physicsStep_frame f c) as (_ & _ & _ & _ & _ & E1 & _).
  set (c1 := GravityRunner.set_gameState _ (physicsStep f c)).
  change (GravityRunner.highScore c1) with (GravityRunner.highScore (physicsStep f c)).
  rewrite E1.
  destruct (filterWith _ c1 _) as [c2 kept]. now repeat split.
Qed.

(** Whatever holds of the high score and the storage when a frame begins,
    and survives a write of a score that beats the high score the frame
    began with, holds when the frame ends. *)
Lemma updateGame_high_score_inv
  (I : Integral.t -> gmap string string -> Prop) (f : Frame.t num) (c : GravityRunner.t num) :
  I (GravityRunner.highScore c) (GravityRunner.localStorage c) ->
  (forall hs ls score,
     I hs ls -> score_gt score (GravityRunner.highScore c) = true ->
     I (Integral.Finite score) (<[gravityRunnerHighScore := pretty score]> ls)) ->
  I (GravityRunner.highScore (updateGame f c)) (GravityRunner.localStorage (updateGame f c)).
Proof.
  intros Hc Hw. destruct (updateGame_filter f c) as (_ & -> & ->).
  destruct (physicsStep_frame f c) as (_ & _ & _ & _ & _ & E1 & E2 & _).
  set (c1 := GravityRunner.set_gameState _ (physicsStep f c)).
  assert (H1 : I (GravityRunner.highScore c1) (GravityRunner.localStorage c1))
    by (subst c1; cbn; now rewrite E1, E2).
  apply (filterWith_inv
    (fun s => I (GravityRunner.highScore s) (GravityRunner.localStorage s))); [|exact H1].
  intros s a Hs.
  destruct (obstacleStep_cases (GravityRunner.highScore c) s a)
    as [(_ & _ & Eh & El) | [(_ & _ & _ & E) | (_ & _ & E)]]; cbn zeta in *.
  - now rewrite Eh, El.
  - destruct (score_gt _ _) eqn:Egt; destruct E as [Eh El]; rewrite Eh, El;
      [|exact Hs]. now apply (Hw _ _ _ Hs).
  - now rewrite E.
Qed.

Lemma handle_high_score_inv
  (I : Integral.t -> gmap string string -> Prop) (c : GravityRunner.t num) (e : Event num) :
  I (GravityRunner.highScore c) (GravityRunner.localStorage c) ->
  (forall hs ls score,
     I hs ls -> score_gt score (GravityRunner.highScore c) = true ->
     I (Integral.Finite score) (<[gravityRunnerHighScore := pretty score]> ls)) ->
  I (GravityRunner.highScore (handle c e)) (GravityRunner.localStorage (handle c e)).
Proof.
  intros Hc Hw. destruct e; cbn; try exact Hc.
  - unfold handleKeyDown.
    destruct (GravityRunner.gameStarted c), (GravityRunner.gameOver c); exact Hc.
  - unfold handleTouch.
    destruct (GravityRunner.gameStarted c), (GravityRunner.gameOver c); exact Hc.
  - unfold gameLoop. destruct (_ && _); [|exact Hc].
    now apply updateGame_high_score_inv.
Qed.

Lemma run_persisted (ls : gmap string string) (es : list (Event num)) :
  persisted ls (run (mount ls) es).
Proof.
  unfold run. apply (fold_left_inv (persisted ls)).
  - intros s e Hs.
    apply (handle_high_score_inv
             (fun hs l =>
                (hs = readHighScore ls /\ l = ls) \/
                (exists z : Z, hs = Integral.Finite z /\
                               l = <[gravityRunnerHighScore := pretty z]> ls)) s e Hs).
    intros hs l score [[_ ->] | (z & _ & ->)] _; right; exists score;
      (split; [reflexivity|]); [reflexivity | apply insert_insert_eq].
  - left. unfold mount. cbn. now split.
Qed.

(** In the range of the safe integers what is stored reads back as the
    high score. *)
Lemma persisted_reads_back (ls : gmap string string) (c : GravityRunner.t num) :
  persisted ls c ->
  (forall h, GravityRunner.highScore c = Integral.Finite h -> safeInteger h) ->
  readHighScore (GravityRunner.localStorage c) = GravityRunner.highScore c.
Proof.
  intros [[Eh El] | (z & Eh & El)] Hsafe; rewrite El, Eh; [reflexivity|].
  rewrite readHighScore_insert. apply toNumber_safeInteger, Hsafe, Eh.
Qed.

End HighScore_lemmas.



(** ** Two games played in the code's arithmetic *)

(** No input: the first obstacle hangs from the ceiling, the player rests on
    the ground, and the 94th frame is the one that clears the obstacle. *)
Example no_input_clears_one_obstacle :
  let before := advance quarter 93 1700000000000 fresh in
  let after := advance quarter 94 1700000000000 fresh in
  GameState.score (GravityRunner.gameState before) = 0%Z /\
  length (GameState.obstacles (GravityRunner.gameState before)) = 1%nat /\
  GameState.score (GravityRunner.gameState after) = 10%Z /\
  GravityRunner.score after = 10%Z /\
  GameState.obstacles (GravityRunner.gameState after) = [] /\
  GravityRunner.gameOver after = false.
Proof. cbv zeta. repeat split; vm_compute; reflexivity. Qed.

(** No input, obstacles on the ground: the player runs into the first one,
    the game is over and the 30 points replace the stored 0. *)
Example crash_persists_high_score :
  let c := advance threeQuarters 80 1700000000000 with30 in
  readHighScore (GravityRunner.localStorage with30) = Integral.Finite 0 /\
  GravityRunner.gameOver c = true /\
  GravityRunner.localStorage c !! gravityRunnerHighScore = Some "30" /\
  readHighScore (GravityRunner.localStorage c) = Integral.Finite 30 /\
  GravityRunner.highScore c = Integral.Finite 30.
Proof. cbv zeta. repeat split; vm_compute; reflexivity. Qed.

(** * Further properties of the code *)

(** ** Difficulty *)

(** X1. As the score grows the level does not fall, the spacing between
    spawns does not grow and the number of patterns in play does not fall;
    the spacing stays between 800 and 1500 ms and bottoms out exactly from
    700 points on, the variety stays between 1 and 4 and tops out exactly
    from 600 points on. *)
Theorem difficulty_never_eases :
  forall s1 s2 : Z,
    (0 <= s1 <= s2)%Z ->
    let l1 := getDifficultyLevel s1 in
    let l2 := getDifficultyLevel s2 in
    (0 <= l1 <= l2)%Z /\
    (800 <= getObstacleSpacing l2 <= getObstacleSpacing l1)%Z /\
    (getObstacleSpacing l1 <= 1500)%Z /\
    (1 <= getObstacleVariety l1 <= getObstacleVariety l2)%Z /\
    (getObstacleVariety l2 <= 4)%Z /\
    (getObstacleSpacing l1 = 800%Z <-> (700 <= s1)%Z) /\
    (getObstacleVariety l1 = 4%Z <-> (600 <= s1)%Z).
Proof.
  intros s1 s2 Hs l1 l2.
  subst l1 l2. unfold getObstacleSpacing, getObstacleVariety, getDifficultyLevel.
  pose proof (Z.div_mod s1 100 ltac:(lia)) as D1.
  pose proof (Z.mod_pos_bound s1 100 ltac:(lia)) as M1.
  pose proof (Z.div_mod s2 100 ltac:(lia)) as D2.
  pose proof (Z.mod_pos_bound s2 100 ltac:(lia)) as M2.
  pose proof (Z.div_mod (s1 / 100) 2 ltac:(lia)) as E1.
  pose proof (Z.mod_pos_bound (s1 / 100) 2 ltac:(lia)) as N1.
  pose proof (Z.div_mod (s2 / 100) 2 ltac:(lia)) as E2.
  pose proof (Z.mod_pos_bound (s2 / 100) 2 ltac:(lia)) as N2.
  repeat split; lia.
Qed.
Lemma difficulty_never_eases_witness :
  (0 <= 250 <= 730)%Z /\
  (getObstacleSpacing (getDifficultyLevel 730) <= getObstacleSpacing (getDifficultyLevel 250))%Z /\
  getObstacleSpacing (getDifficultyLevel 730) = 800%Z.
Proof.
  assert (H : (0 <= 250 <= 730)%Z) by lia.
  split; [exact H|].
  destruct (difficulty_never_eases 250 730 H) as (_ & Hsp & _).
  split; [exact (proj2 Hsp) | reflexivity].
Defined.

(** ** The obstacle generator *)

Section Generator_lemmas.
Context {num : Type} `{Number num}.

Lemma fold_push_obstacles (g : nat -> Obstacle.t num) (l : list nat) :
  forall st,
    GameState.obstacles (fold_left (fun s i => push_obstacle (g i) s) l st)
    = GameState.obstacles st ++ map g l.
Proof.
  induction l as [|i l IH]; intros st; cbn; [now rewrite app_nil_r|].
  rewrite IH. cbn. now rewrite <- app_assoc.
Qed.

Lemma createSpikePattern_obstacles id random st :
  GameState.obstacles (createSpikePattern id random st)
  = GameState.obstacles st
    ++ map (spikeAt id random)
         (seq 0 (Z.to_nat (3 + Math_floor (nmul (random 0%nat) (ofZ 3))))).
Proof.
  unfold createSpikePattern.
  apply (fold_push_obstacles (spikeAt id random)).
Qed.

(** [createObstacle] returns at once, or runs one of the four patterns and
    records the time. *)
Lemma createObstacle_cases now random st :
  let spacing := getObstacleSpacing (getDifficultyLevel (GameState.score st)) in
  let rest := fun i => random (S i) in
  ((now - GameState.lastObstacleTime st < spacing)%Z /\
   createObstacle now random st = st) \/
  ((spacing <= now - GameState.lastObstacleTime st)%Z /\
   exists st1,
     createObstacle now random st = GameState.set_lastObstacleTime now st1 /\
     (st1 = createSingleObstacle now rest st \/ st1 = createDoubleObstacle now st \/
      st1 = createNarrowGap now rest st \/ st1 = createSpikePattern now rest st)).
Proof.
  cbn zeta. unfold createObstacle.
  destruct (_ <? _)%Z eqn:E; [left; split; [now apply Z.ltb_lt | reflexivity]|].
  right. split; [now apply Z.ltb_ge|]. eexists. split; [reflexivity|].
  destruct (Math_floor _) as [|[p|p|]|p]; auto; destruct p; auto.
Qed.

End Generator_lemmas.

(** X2. [createObstacle] leaves the last-spawn time alone or moves it
    forward by at least 800 ms, to the clock reading it was given: two
    spawns are never less than 800 ms apart.  Of the game state it writes
    the obstacles and the last-spawn time, nothing else.  Any arithmetic. *)
Theorem spawns_at_least_800ms_apart :
  forall (num : Type) (N : Number num) (now : Z) (random : nat -> num)
         (st : GameState.t num),
    let st' := createObstacle now random st in
    (st' = st \/
     (GameState.lastObstacleTime st' = now /\
      (GameState.lastObstacleTime st + 800 <= now)%Z)) /\
    GameState.player st' = GameState.player st /\
    GameState.particles st' = GameState.particles st /\
    GameState.gameSpeed st' = GameState.gameSpeed st /\
    GameState.score st' = GameState.score st /\
    GameState.distance st' = GameState.distance st /\
    GameState.startTime st' = GameState.startTime st /\
    GameState.keys st' = GameState.keys st.
Proof.
  intros num N now random st st'.
  split.
  - subst st'. destruct (createObstacle_cases now random st)
      as [[_ E] | (Hge & st1 & E & _)]; [now left|]. right. rewrite E. cbn.
    split; [reflexivity|]. unfold getObstacleSpacing in Hge. lia.
  - subst st'. destruct (createObstacle_cases now random st)
      as [[_ E] | (_ & st1 & E & Hst1)]; rewrite E; [now repeat split|].
    destruct Hst1 as [-> | [-> | [-> | ->]]]; try (now repeat split).
    cbn. unfold createSpikePattern.
    apply (fold_left_inv (fun s =>
      GameState.player s = GameState.player st /\
      GameState.particles s = GameState.particles st /\
      GameState.gameSpeed s = GameState.gameSpeed st /\
      GameState.score s = GameState.score st /\
      GameState.distance s = GameState.distance st /\
      GameState.startTime s = GameState.startTime st /\
      GameState.keys s = GameState.keys st)); [|now repeat split].
    intros s i Hs. exact Hs.
Qed.


Ltac pose_draws Hr random :=
  repeat match goal with
  | |- context [random ?n] =>
      lazymatch goal with
      | _ : (0 <= random n)%Q |- _ => fail
      | _ => let H0 := fresh "H0" in let H1 := fresh "H1" in
             destruct (Hr n) as [H0 H1]
      end
  end.

Lemma spikeCount_range (r : Q) :
  (0 <= r)%Q -> (r < 1)%Q -> (0 <= Qfloor (r * 3) <= 2)%Z.
Proof.
  intros H0 H1. split.
  - rewrite <- (Qfloor_Z 0). apply Qfloor_resp_le. Qconsts. lra.
  - apply Z.lt_succ_r. rewrite Zlt_Qlt.
    eapply Qle_lt_trans; [apply Qfloor_le|].
    change (inject_Z (Z.succ 2)) with 3%Q. lra.
Qed.



(** X4. With draws in [0,1), every obstacle that is spawned lies between
    the ceiling and the ground and is attached to one of them: one marked
    [isTop] starts at the ceiling ([y = 50]), any other ends at the ground
    ([y + height = 590]).  Exact arithmetic. *)
Theorem spawned_obstacles_attached :
  forall (now : Z) (random : nat -> Q) (st : GameState.t Q),
    (forall i, (0 <= random i)%Q /\ (random i < 1)%Q) ->
    exists added,
      GameState.obstacles (createObstacle now random st) = GameState.obstacles st ++ added /\
      Forall (fun o =>
                (50 <= Obstacle.y o)%Q /\
                (Obstacle.y o + Obstacle.height o <= 590)%Q /\
                (Obstacle.isTop o = true -> (Obstacle.y o == 50)%Q) /\
                (Obstacle.isTop o = false ->
                 (Obstacle.y o + Obstacle.height o == 590)%Q)) added.
Proof.
  intros now random st Hr.
  assert (Hgap : Qmax (inject_Z 80) (inject_Z 640 * (25 # 100)) = (16000 # 100)%Q)
    by reflexivity.
  apply createObstacle_spawns.
  - unfold createSingleObstacle. apply spawns_push. cbn.
    destruct (Hr 2%nat) as [H0 H1].
    unfold getGroundY, getCeilingY, canvasSize_height. exact_arith.
    destruct (Qltb _ _); repeat split; intros; try discriminate; lra.
  - unfold createDoubleObstacle.
    eapply spawns_trans; apply spawns_push; cbn;
      unfold getGroundY, getCeilingY, canvasSize_height; exact_arith;
      repeat split; intros; try discriminate; lra.
  - unfold createNarrowGap. destruct (Hr 1%nat) as [H0 H1].
    eapply spawns_trans; apply spawns_push; cbn;
      unfold getGroundY, getCeilingY, canvasSize_height; exact_arith;
      rewrite Hgap; repeat split; intros; try discriminate; lra.
  - apply createSpikePattern_spawns. intros i s. unfold createSpike.
    apply spawns_push. cbn.
    pose_draws Hr random.
    unfold getGroundY, getCeilingY, canvasSize_height. exact_arith.
    destruct (Qltb _ _); repeat split; intros; try discriminate; lra.
Qed.

Lemma spawned_obstacles_attached_witness :
  (forall i, (0 <= half i)%Q /\ (half i < 1)%Q) /\
  exists added,
    GameState.obstacles (createObstacle 2000 half level4)
    = GameState.obstacles level4 ++ added /\
    Forall (fun o => (50 <= Obstacle.y o)%Q /\
                     (Obstacle.y o + Obstacle.height o <= 590)%Q) added.
Proof.
  assert (Hhalf : forall i, (0 <= half i)%Q /\ (half i < 1)%Q)
    by (intros i; unfold half; split; lra).
  split; [exact Hhalf|].
  destruct (spawned_obstacles_attached 2000%Z half level4 Hhalf) as (added & E & Hall).
  exists added. split; [exact E|].
  eapply List.Forall_impl; [|exact Hall]. intros o (H1 & H2 & _). now split.
Defined.




(** ** Obstacle identifiers *)

Section Filter_lemmas.
Context {num : Type} `{Number num}.

(** The filter keeps a sub-sequence of the obstacles, identifiers intact. *)
Lemma filterWith_obstacleStep_ids (R : num -> num -> Prop) hs l :
  forall c : GravityRunner.t num,
    let kept := snd (filterWith (obstacleStep hs) c l) in
    (forall P : num -> Prop,
       Forall P (map Obstacle.id l) -> Forall P (map Obstacle.id kept)) /\
    (StronglySorted R (map Obstacle.id l) -> StronglySorted R (map Obstacle.id kept)).
Proof.
  induction l as [|a l IH]; intros c; cbn zeta.
  - cbn. split; [intros P HP; exact HP | intros Hs; exact Hs].
  - cbn [filterWith].
    pose proof (obstacleStep_score hs c a) as [_ Hk]. cbn zeta in Hk.
    destruct (obstacleStep hs c a) as [c1 keep]. cbn [snd] in Hk.
    specialize (IH c1). cbn zeta in IH.
    destruct (filterWith (obstacleStep hs) c1 l) as [c2 rest]. cbn [snd] in *.
    destruct IH as [IHP IHS].
    assert (Hkeep : keep = None \/
                    exists a', keep = Some a' /\ Obstacle.id a' = Obstacle.id a).
    { destruct (passed _ a); [now left|].
      destruct Hk as [-> | ->]; [now left | right; eexists; split; reflexivity]. }
    destruct Hkeep as [-> | (a' & -> & Eid)]; cbn [map]; split.
    + intros P HP. apply IHP. now inversion HP.
    + intros Hs. apply IHS. now inversion Hs.
    + intros P HP. inversion HP; subst. constructor; [now rewrite Eid | now apply IHP].
    + intros Hs. inversion Hs; subst. constructor; [now apply IHS|].
      rewrite Eid. now apply IHP.
Qed.

(** The callback writes nothing of the game state but the score. *)
Lemma obstacleStep_gameState hs (c : GravityRunner.t num) o :
  let st := GravityRunner.gameState c in
  let st' := GravityRunner.gameState (fst (obstacleStep hs c o)) in
  st' = st \/ st' = GameState.set_score (GameState.score st + 10) st.
Proof.
  unfold obstacleStep. cbn.
  destruct (nlt _ _); [now right|]. left.
  destruct (checkCollision _ _); [|reflexivity]. now destruct (score_gt _ _).
Qed.

Lemma filterWith_lastObstacleTime hs l (c : GravityRunner.t num) :
  GameState.lastObstacleTime (GravityRunner.gameState (fst (filterWith (obstacleStep hs) c l)))
  = GameState.lastObstacleTime (GravityRunner.gameState c).
Proof.
  apply (filterWith_inv (fun s =>
    GameState.lastObstacleTime (GravityRunner.gameState s)
    = GameState.lastObstacleTime (GravityRunner.gameState c))); [|reflexivity].
  intros s a Hs. destruct (obstacleStep_gameState hs s a) as [E | E];
    cbn zeta in E; rewrite E; exact Hs.
Qed.

(** What [updateGame] leaves in [obstacles] and [lastObstacleTime]. *)
Lemma updateGame_obstacles f (c : GravityRunner.t num) :
  let pre := createObstacle (Frame.now_spawn f) (Frame.random_spawn f)
               (GravityRunner.gameState (physicsStep f c)) in
  let c1 := GravityRunner.set_gameState pre (physicsStep f c) in
  GameState.obstacles (GravityRunner.gameState (updateGame f c))
  = snd (filterWith (obstacleStep (GravityRunner.highScore c1)) c1 (GameState.obstacles pre)) /\
  GameState.lastObstacleTime (GravityRunner.gameState (updateGame f c))
  = GameState.lastObstacleTime pre.
Proof.
  cbn zeta. unfold updateGame, updateSpeed, updateParticles, updateObstacles. cbn.
  match goal with
  | |- context [filterWith ?cb ?s ?l] =>
      pose proof (filterWith_lastObstacleTime
                    (GravityRunner.highScore (physicsStep f c)) l s) as Hl;
      destruct (filterWith cb s l) as [c2 kept]
  end.
  cbn in *. split; [reflexivity | exact Hl].
Qed.

End Filter_lemmas.


Lemma spike_ids_sorted (id : Z) (random : nat -> Q) (n : nat) :
  forall k : nat,
    StronglySorted Qlt (map Obstacle.id (map (spikeAt id random) (seq k n))).
Proof.
  induction n as [|n IH]; intros k; cbn [seq map]; constructor; [apply IH|].
  apply List.Forall_forall. intros q Hq.
  apply List.in_map_iff in Hq. destruct Hq as (o & <- & Ho).
  apply List.in_map_iff in Ho. destruct Ho as (j & <- & Hj).
  apply List.in_seq in Hj. unfold spikeAt. cbn. exact_arith.
  assert (Hkj : (inject_Z (Z.of_nat k) < inject_Z (Z.of_nat j))%Q)
    by (rewrite <- Zlt_Qlt; lia).
  lra.
Qed.

Lemma spike_ids_bounded (id : Z) (random : nat -> Q) (n : nat) :
  (n <= 5)%nat ->
  Forall (fun o => (inject_Z id <= Obstacle.id o)%Q /\
                   (Obstacle.id o <= inject_Z id + (4 # 10))%Q)
         (map (spikeAt id random) (seq 0 n)).
Proof.
  intros Hn. apply List.Forall_forall. intros o Ho.
  apply List.in_map_iff in Ho. destruct Ho as (j & <- & Hj).
  apply List.in_seq in Hj. unfold spikeAt. cbn. exact_arith.
  assert (H0 : (inject_Z 0 <= inject_Z (Z.of_nat j))%Q) by (rewrite <- Zle_Qle; lia).
  assert (H4 : (inject_Z (Z.of_nat j) <= inject_Z 4)%Q) by (rewrite <- Zle_Qle; lia).
  Qconsts. split; lra.
Qed.

Lemma idsOrdered_append (st st1 : GameState.t Q) (now : Z) (added : list (Obstacle.t Q)) :
  idsOrdered st ->
  (GameState.lastObstacleTime st + 800 <= now)%Z ->
  StronglySorted Qlt (map Obstacle.id added) ->
  Forall (fun o => (inject_Z now <= Obstacle.id o)%Q /\
                   (Obstacle.id o <= inject_Z now + (4 # 10))%Q) added ->
  GameState.obstacles st1 = GameState.obstacles st ++ added ->
  idsOrdered (GameState.set_lastObstacleTime now st1).
Proof.
  intros [Hs Hb] Hnow Hsa Hba E. unfold idsOrdered. cbn. rewrite E.
  rewrite Zle_Qle, inject_Z_plus in Hnow. Qconsts.
  rewrite List.Forall_forall in Hb, Hba.
  split.
  - rewrite map_app. apply StronglySorted_app. split; [|now split].
    intros x1 x2 H1 H2. apply list_elem_of_In in H1, H2.
    apply List.in_map_iff in H1, H2.
    destruct H1 as (o1 & <- & Ho1), H2 as (o2 & <- & Ho2).
    specialize (Hb o1 Ho1). destruct (Hba o2 Ho2) as [Hlo _]. lra.
  - apply List.Forall_forall. intros o Ho. apply List.in_app_iff in Ho.
    destruct Ho as [Ho | Ho]; [specialize (Hb o Ho); lra | now apply Hba].
Qed.

Lemma createObstacle_idsOrdered (now : Z) (random : nat -> Q) (st : GameState.t Q) :
  (forall i, (0 <= random i)%Q /\ (random i < 1)%Q) ->
  idsOrdered st -> idsOrdered (createObstacle now random st).
Proof.
  intros Hr Hst.
  destruct (createObstacle_cases now random st) as [[_ E] | (Hge & st1 & E & Hst1)];
    rewrite E; [exact Hst|].
  assert (Hnow : (GameState.lastObstacleTime st + 800 <= now)%Z)
    by (unfold getObstacleSpacing in Hge; lia).
  destruct Hst1 as [-> | [-> | [-> | ->]]].
  - eapply (idsOrdered_append st _ now); [exact Hst | exact Hnow | ..]; cycle 2.
    + unfold createSingleObstacle. cbn. reflexivity.
    + cbn. repeat constructor.
    + repeat constructor; cbn; exact_arith; lra.
  - eapply (idsOrdered_append st _ now); [exact Hst | exact Hnow | ..]; cycle 2.
    + unfold createDoubleObstacle. cbn. rewrite <- app_assoc. reflexivity.
    + cbn. exact_arith. repeat constructor. lra.
    + repeat constructor; cbn; exact_arith; lra.
  - eapply (idsOrdered_append st _ now); [exact Hst | exact Hnow | ..]; cycle 2.
    + unfold createNarrowGap. cbn. rewrite <- app_assoc. reflexivity.
    + cbn. exact_arith. repeat constructor. lra.
    + repeat constructor; cbn; exact_arith; lra.
  - eapply (idsOrdered_append st _ now); [exact Hst | exact Hnow | ..]; cycle 2.
    + apply createSpikePattern_obstacles.
    + apply spike_ids_sorted.
    + apply spike_ids_bounded.
      destruct (Hr 1%nat) as [H0 H1].
      pose proof (spikeCount_range _ H0 H1) as Hc. exact_arith. lia.
Qed.

Lemma updateGame_idsOrdered (f : Frame.t Q) (c : GravityRunner.t Q) :
  drawsInRange f ->
  idsOrdered (GravityRunner.gameState c) ->
  idsOrdered (GravityRunner.gameState (updateGame f c)).
Proof.
  intros Hr Hc.
  destruct (updateGame_obstacles f c) as [Eo El]. cbn zeta in *.
  destruct (physicsStep_frame f c) as (E1 & _ & E3 & _).
  assert (Hp : idsOrdered (GravityRunner.gameState (physicsStep f c)))
    by (unfold idsOrdered in *; cbn zeta in *; now rewrite E1, E3).
  apply (createObstacle_idsOrdered (Frame.now_spawn f) (Frame.random_spawn f) _ Hr) in Hp.
  destruct Hp as [Hs Hb]. unfold idsOrdered. rewrite Eo, El.
  match goal with
  | |- context [filterWith (obstacleStep ?hs) ?c1 ?l] =>
      destruct (filterWith_obstacleStep_ids Qlt hs l c1) as [HP HS];
      pose proof (filterWith_obstacleStep hs l c1) as [_ Hk]
  end.
  cbn zeta in *. split; [now apply HS|].
  rewrite List.Forall_forall in Hb. apply List.Forall_forall. intros o' Ho'.
  rewrite List.Forall_forall in Hk. destruct (Hk o' Ho') as (o & Hin & _ & ->).
  cbn. now apply Hb.
Qed.

Lemma handle_idsOrdered (c : GravityRunner.t Q) (e : Event Q) :
  eventInRange e ->
  idsOrdered (GravityRunner.gameState c) ->
  idsOrdered (GravityRunner.gameState (handle c e)).
Proof.
  intros He Hc.
  assert (Hstart : idsOrdered (GravityRunner.gameState (startGame c)))
    by (unfold startGame, idsOrdered; cbn; split; constructor).
  destruct e; cbn; try exact Hc; try exact Hstart.
  - unfold handleKeyDown.
    destruct (GravityRunner.gameStarted c), (GravityRunner.gameOver c); cbn; assumption.
  - unfold handleTouch.
    destruct (GravityRunner.gameStarted c), (GravityRunner.gameOver c); cbn; assumption.
  - unfold gameLoop. destruct (_ && _); [|exact Hc]. now apply updateGame_idsOrdered.
Qed.




(** ** Collision *)

(** X7. [checkCollision] does not care which rectangle comes first, and for
    a player and an obstacle of positive size it answers [true] exactly when
    some point lies strictly inside both: rectangles that only share an
    edge or a corner do not collide.  Exact arithmetic. *)
Theorem checkCollision_is_strict_overlap :
  forall (p : Player.t Q) (o : Obstacle.t Q),
    (0 < Player.width p)%Q -> (0 < Player.height p)%Q ->
    (0 < Obstacle.width o)%Q -> (0 < Obstacle.height o)%Q ->
    checkCollision p o = checkCollision o p /\
    (checkCollision p o = true <->
     exists px py : Q,
       (Player.x p < px)%Q /\ (px < Player.x p + Player.width p)%Q /\
       (Player.y p < py)%Q /\ (py < Player.y p + Player.height p)%Q /\
       (Obstacle.x o < px)%Q /\ (px < Obstacle.x o + Obstacle.width o)%Q /\
       (Obstacle.y o < py)%Q /\ (py < Obstacle.y o + Obstacle.height o)%Q).
Proof.
  intros [xp yp wp hp v g fl fg t] [i xo yo wo ho top]. cbn. intros Hwp Hhp Hwo Hho.
  unfold checkCollision. cbn. exact_arith. split.
  - destruct (Qltb xp (xo + wo)), (Qltb xo (xp + wp)),
             (Qltb yp (yo + ho)), (Qltb yo (yp + hp)); reflexivity.
  - rewrite !andb_true_iff, !Qltb_true. split.
    + intros (((H1 & H2) & H3) & H4).
      assert (Hx : exists px, (xp < px)%Q /\ (px < xp + wp)%Q /\
                              (xo < px)%Q /\ (px < xo + wo)%Q).
      { destruct (Qlt_le_dec xp xo), (Qlt_le_dec (xp + wp) (xo + wo)).
        - exists ((xo + (xp + wp)) * (1 # 2))%Q. repeat split; lra.
        - exists ((xo + (xo + wo)) * (1 # 2))%Q. repeat split; lra.
        - exists ((xp + (xp + wp)) * (1 # 2))%Q. repeat split; lra.
        - exists ((xp + (xo + wo)) * (1 # 2))%Q. repeat split; lra. }
      assert (Hy : exists py, (yp < py)%Q /\ (py < yp + hp)%Q /\
                              (yo < py)%Q /\ (py < yo + ho)%Q).
      { destruct (Qlt_le_dec yp yo), (Qlt_le_dec (yp + hp) (yo + ho)).
        - exists ((yo + (yp + hp)) * (1 # 2))%Q. repeat split; lra.
        - exists ((yo + (yo + ho)) * (1 # 2))%Q. repeat split; lra.
        - exists ((yp + (yp + hp)) * (1 # 2))%Q. repeat split; lra.
        - exists ((yp + (yo + ho)) * (1 # 2))%Q. repeat split; lra. }
      destruct Hx as (px & ? & ? & ? & ?), Hy as (py & ? & ? & ? & ?).
      exists px, py. now repeat split.
    + intros (px & py & ? & ? & ? & ? & ? & ? & ? & ?). repeat split; lra.
Qed.

Lemma checkCollision_is_strict_overlap_witness :
  let p := GameState.player (GravityRunner.gameState with40) in
  let o := Obstacle.set_x 56%Q wall in
  checkCollision p o = true /\
  exists px py : Q,
    (Player.x p < px)%Q /\ (px < Player.x p + Player.width p)%Q /\
    (Player.y p < py)%Q /\ (py < Player.y p + Player.height p)%Q /\
    (Obstacle.x o < px)%Q /\ (px < Obstacle.x o + Obstacle.width o)%Q /\
    (Obstacle.y o < py)%Q /\ (py < Obstacle.y o + Obstacle.height o)%Q.
Proof.
  cbv zeta.
  assert (Hhit : checkCollision (GameState.player (GravityRunner.gameState with40))
                   (Obstacle.set_x 56%Q wall) = true) by reflexivity.
  split; [exact Hhit|].
  apply (proj2 (checkCollision_is_strict_overlap
                  (GameState.player (GravityRunner.gameState with40))
                  (Obstacle.set_x 56%Q wall)
                  ltac:(reflexivity) ltac:(reflexivity) ltac:(reflexivity)
                  ltac:(reflexivity))).
  exact Hhit.
Defined.

Section Collision_lemmas.
Context {num : Type} `{Number num}.

Lemma obstacleStep_snd hs (c : GravityRunner.t num) o :
  let player := GameState.player (GravityRunner.gameState c) in
  let speed := GameState.gameSpeed (GravityRunner.gameState c) in
  snd (obstacleStep hs c o)
  = if negb (passed speed o) && negb (hits player speed o)
    then Some (Obstacle.set_x (nsub (Obstacle.x o) speed) o)
    else None.
Proof.
  unfold obstacleStep, hits, passed. cbn.
  destruct (nlt _ _); [reflexivity|]. cbn.
  destruct (checkCollision _ _); reflexivity.
Qed.

Lemma obstacleStep_gameOver hs (c : GravityRunner.t num) o :
  let player := GameState.player (GravityRunner.gameState c) in
  let speed := GameState.gameSpeed (GravityRunner.gameState c) in
  GravityRunner.gameOver (fst (obstacleStep hs c o))
  = GravityRunner.gameOver c || hits player speed o.
Proof.
  unfold obstacleStep, hits, passed. cbn.
  destruct (nlt _ _); cbn; [now rewrite orb_false_r|].
  destruct (checkCollision _ _); cbn; [|now rewrite orb_false_r].
  rewrite orb_true_r. now destruct (score_gt _ _).
Qed.

(** What the obstacle filter returns, in full. *)
Lemma filterWith_obstacleStep_result hs l :
  forall c : GravityRunner.t num,
    let player := GameState.player (GravityRunner.gameState c) in
    let speed := GameState.gameSpeed (GravityRunner.gameState c) in
    let r := filterWith (obstacleStep hs) c l in
    GravityRunner.gameOver (fst r)
    = GravityRunner.gameOver c || existsb (hits player speed) l /\
    snd r = map (fun o => Obstacle.set_x (nsub (Obstacle.x o) speed) o)
                (List.filter (fun o => negb (passed speed o) && negb (hits player speed o)) l).
Proof.
  induction l as [|a l IH]; intros c; cbn zeta.
  - cbn. now rewrite orb_false_r.
  - cbn [filterWith existsb List.filter].
    destruct (obstacleStep_frame hs c a) as (Ep & _ & Es & _).
    pose proof (obstacleStep_gameOver hs c a) as Eo.
    pose proof (obstacleStep_snd hs c a) as Ek.
    destruct (obstacleStep hs c a) as [c1 keep]. cbn [fst snd] in *.
    specialize (IH c1). cbn zeta in IH. rewrite Ep, Es in IH.
    destruct (filterWith (obstacleStep hs) c1 l) as [c2 rest]. cbn [fst snd] in *.
    destruct IH as [IHo IHk]. rewrite IHo, Eo, Ek, IHk, orb_assoc.
    split; [reflexivity|]. now destruct (_ && _).
Qed.

End Collision_lemmas.

(** X8. A frame ends the game exactly when one of the obstacles it visits,
    moved left by the game speed, is still on screen and overlaps the player
    as the physics step left it; and the obstacles it keeps are exactly the
    visited ones that neither passed the left edge nor hit the player, in
    their order, each moved left by the game speed and otherwise unchanged.
    Any arithmetic. *)
Theorem frame_game_over_and_survivors :
  forall (num : Type) (N : Number num) (f : Frame.t num) (c : GravityRunner.t num),
    let speed := GameState.gameSpeed (GravityRunner.gameState c) in
    let player := GameState.player (GravityRunner.gameState (physicsStep f c)) in
    let visited :=
      GameState.obstacles
        (createObstacle (Frame.now_spawn f) (Frame.random_spawn f)
           (GravityRunner.gameState (physicsStep f c))) in
    let c' := updateGame f c in
    GravityRunner.gameOver c' = GravityRunner.gameOver c || existsb (hits player speed) visited /\
    GameState.obstacles (GravityRunner.gameState c')
    = map (fun o => Obstacle.set_x (nsub (Obstacle.x o) speed) o)
          (List.filter (fun o => negb (passed speed o) && negb (hits player speed o)) visited).
Proof.
  intros num N f c speed player visited c'. subst c'.
  unfold updateGame, updateSpeed, updateParticles, updateObstacles. cbn.
  set (pre := createObstacle _ _ _).
  destruct (createObstacle_frame (Frame.now_spawn f) (Frame.random_spawn f)
              (GravityRunner.gameState (physicsStep f c))) as (Hpl & _ & _ & Hsp & _).
  destruct (physicsStep_frame f c) as (_ & Hsp' & _ & _ & _ & _ & _ & Hov & _).
  cbn zeta in *. fold pre in Hpl, Hsp.
  pose proof (filterWith_obstacleStep_result (GravityRunner.highScore (physicsStep f c))
                (GameState.obstacles pre)
                (GravityRunner.set_gameState pre (physicsStep f c))) as Hf.
  cbn in Hf. rewrite Hpl, Hsp, Hsp', Hov in Hf.
  destruct (filterWith _ _ _) as [c1 kept]. exact Hf.
Qed.


Lemma physicsStep_player_size {num : Type} `{Number num}
  (f : Frame.t num) (c : GravityRunner.t num) :
  let p := GameState.player (GravityRunner.gameState c) in
  let p' := GameState.player (GravityRunner.gameState (physicsStep f c)) in
  Player.x p' = Player.x p /\ Player.width p' = Player.width p /\
  Player.height p' = Player.height p.
Proof.
  cbn zeta. rewrite physicsStep_player.
  destruct (GameState.player (GravityRunner.gameState c))
    as [x y w h v onG flipped flipping start].
  unfold groundCeilingCollision, applyGravity, updateFlipAnimation. cbn.
  destruct (Keys.space _ && negb flipping); cbn;
    repeat match goal with
    | |- context [if ?b then _ else _] => destruct b; cbn
    end; now repeat split.
Qed.

(** The player of a started game stands in the spawn column. *)
Lemma handle_spawn_column (c : GravityRunner.t Q) (e : Event Q) :
  let inColumn (c : GravityRunner.t Q) :=
    (Player.x (GameState.player (GravityRunner.gameState c))
     + Player.width (GameState.player (GravityRunner.gameState c)) == 79)%Q in
  inColumn c -> inColumn (handle c e).
Proof.
  cbn zeta. intros Hc.
  assert (Hstart :
    (Player.x (GameState.player (GravityRunner.gameState (startGame c)))
     + Player.width (GameState.player (GravityRunner.gameState (startGame c))) == 79)%Q)
    by (unfold startGame; cbn; exact_arith; reflexivity).
  destruct e; cbn; try exact Hc; try exact Hstart.
  - unfold handleKeyDown.
    destruct (GravityRunner.gameStarted c), (GravityRunner.gameOver c); cbn; assumption.
  - unfold handleTouch.
    destruct (GravityRunner.gameStarted c), (GravityRunner.gameOver c); cbn; assumption.
  - unfold gameLoop. destruct (_ && _); [|exact Hc].
    rewrite updateGame_player.
    destruct (physicsStep_player_size f c) as (Ex & Ew & _). cbn zeta in *.
    now rewrite Ex, Ew.
Qed.

(** X9. In a game that has been started, whatever happened since, the
    obstacles a frame spawns all outlive that frame: moved left by the game
    speed they have neither passed the left edge nor reached the player, so
    a spawn can neither score nor end the game at once.  Exact arithmetic. *)
Theorem spawned_obstacles_survive_their_frame :
  forall (c0 : GravityRunner.t Q) (es : list (Event Q)) (f : Frame.t Q),
    let c := run (startGame c0) es in
    let speed := GameState.gameSpeed (GravityRunner.gameState c) in
    let before := GravityRunner.gameState (physicsStep f c) in
    let player := GameState.player before in
    exists added,
      GameState.obstacles (createObstacle (Frame.now_spawn f) (Frame.random_spawn f) before)
      = GameState.obstacles before ++ added /\
      Forall (fun o => passed speed o = false /\ hits player speed o = false) added.
Proof.
  intros c0 es f c speed before player.
  assert (Hspeed : (speed <= 12)%Q).
  { subst speed c. unfold run.
    apply (fold_left_inv (fun c => (GameState.gameSpeed (GravityRunner.gameState c) <= 12)%Q)).
    - intros s a. apply handle_gameSpeed_le_12.
    - unfold startGame. cbn. exact_arith. lra. }
  assert (Hcol : (Player.x player + Player.width player == 79)%Q).
  { subst player before.
    destruct (physicsStep_player_size f c) as (Ex & Ew & _). cbn zeta in *.
    rewrite Ex, Ew. subst c. unfold run.
    apply (fold_left_inv (fun c =>
      (Player.x (GameState.player (GravityRunner.gameState c))
       + Player.width (GameState.player (GravityRunner.gameState c)) == 79)%Q)).
    - intros s a. apply handle_spawn_column.
    - unfold startGame. cbn. exact_arith. reflexivity. }
  assert (Hsp : spawns (fun o => (360 <= Obstacle.x o)%Q /\ (0 <= Obstacle.width o)%Q)
                  before
                  (createObstacle (Frame.now_spawn f) (Frame.random_spawn f) before)).
  { apply createObstacle_spawns.
    - unfold createSingleObstacle. apply spawns_push. cbn.
      unfold canvasSize_width. exact_arith. split; lra.
    - unfold createDoubleObstacle.
      eapply spawns_trans; apply spawns_push; cbn; unfold canvasSize_width;
        exact_arith; split; lra.
    - unfold createNarrowGap.
      eapply spawns_trans; apply spawns_push; cbn; unfold canvasSize_width;
        exact_arith; split; lra.
    - apply createSpikePattern_spawns. intros i s. unfold createSpike.
      apply spawns_push. cbn. unfold canvasSize_width. exact_arith.
      pose proof (inject_Z_nonneg (Z.of_nat i) (Nat2Z.is_nonneg i)) as Hi.
      split; lra. }
  destruct Hsp as (added & E & Hall). exists added. split; [exact E|].
  eapply List.Forall_impl; [|exact Hall]. intros o [Hx Hw].
  assert (Hp : passed speed o = false)
    by (unfold passed; exact_arith; apply Qltb_false; lra).
  split; [exact Hp|]. unfold hits. rewrite Hp. cbn.
  unfold checkCollision. cbn. exact_arith.
  rewrite !andb_false_iff. left. left. right. apply Qltb_false. lra.
Qed.


(** ** Speed, distance and score along a game *)

Lemma updateGame_distance {num : Type} `{Number num}
  (f : Frame.t num) (c : GravityRunner.t num) :
  GameState.distance (GravityRunner.gameState (updateGame f c))
  = nadd (GameState.distance (GravityRunner.gameState c))
         (GameState.gameSpeed (GravityRunner.gameState c)).
Proof.
  unfold updateGame, updateSpeed, updateParticles. cbn.
  match goal with
  | |- context [updateObstacles ?c1] =>
      destruct (updateObstacles_frame c1) as (_ & _ & _ & E)
  end.
  cbn zeta in E. rewrite E. cbn.
  destruct (createObstacle_frame (Frame.now_spawn f) (Frame.random_spawn f)
              (GravityRunner.gameState (physicsStep f c))) as (_ & _ & _ & _ & E2).
  cbn zeta in E2. rewrite E2.
  now destruct (physicsStep_frame f c) as (_ & _ & _ & _ & E3 & _).
Qed.

Lemma paced_speed (st : GameState.t Q) :
  paced st -> (4 <= GameState.gameSpeed st)%Q /\ (GameState.gameSpeed st <= 12)%Q.
Proof.
  intros (Hsp & Hd & Hs).
  assert (Hl : (0 <= inject_Z (getDifficultyLevel (GameState.score st)))%Q)
    by (apply inject_Z_nonneg, Z.div_pos; lia).
  rewrite Hsp. split; [apply Q.min_glb; lra | apply Q.le_min_l].
Qed.

Lemma updateGame_paced (f : Frame.t Q) (c : GravityRunner.t Q) :
  paced (GravityRunner.gameState c) ->
  paced (GravityRunner.gameState (updateGame f c)) /\
  (GameState.gameSpeed (GravityRunner.gameState c)
   <= GameState.gameSpeed (GravityRunner.gameState (updateGame f c)))%Q.
Proof.
  intros Hc. destruct (paced_speed _ Hc) as [H4 _].
  destruct Hc as (Hsp & Hd & Hs).
  pose proof (updateGame_distance f c) as Ed.
  pose proof (updateGame_gameSpeed f c) as Eg. cbn zeta in Eg.
  destruct (updateGame_obstacles_score f c) as [Es _]. cbn zeta in Es.
  assert (Hs' : (GameState.score (GravityRunner.gameState c)
                 <= GameState.score (GravityRunner.gameState (updateGame f c)))%Z)
    by (rewrite Es; lia).
  assert (Hl : (inject_Z (getDifficultyLevel (GameState.score (GravityRunner.gameState c)))
                <= inject_Z (getDifficultyLevel
                               (GameState.score (GravityRunner.gameState (updateGame f c)))))%Q)
    by (rewrite <- Zle_Qle; apply Z.div_le_mono; lia).
  split.
  - split; [rewrite Eg; reflexivity|]. split; [rewrite Ed; exact_arith; lra | lia].
  - rewrite Eg, Hsp, Ed. exact_arith. apply Q.min_le_compat_l. lra.
Qed.

Lemma handle_paced (c : GravityRunner.t Q) (e : Event Q) :
  paced (GravityRunner.gameState c) -> paced (GravityRunner.gameState (handle c e)).
Proof.
  intros Hc.
  assert (Hstart : paced (GravityRunner.gameState (startGame c)))
    by (unfold startGame, paced; cbn; exact_arith; repeat split; (reflexivity || lra || lia)).
  destruct e; cbn; try exact Hc; try exact Hstart.
  - unfold handleKeyDown.
    destruct (GravityRunner.gameStarted c), (GravityRunner.gameOver c); cbn; assumption.
  - unfold handleTouch.
    destruct (GravityRunner.gameStarted c), (GravityRunner.gameOver c); cbn; assumption.
  - unfold gameLoop. destruct (_ && _); [|exact Hc]. now apply updateGame_paced.
Qed.

(** X10. In a game that has been started, whatever happened since, the
    speed is between 4 and 12, and a frame adds the speed it began with to
    the distance and never lowers the speed: under play the speed only
    grows until a restart.  Exact arithmetic. *)
Theorem frames_never_slow_the_game :
  forall (c0 : GravityRunner.t Q) (es : list (Event Q)) (f : Frame.t Q),
    let st := GravityRunner.gameState (run (startGame c0) es) in
    let st' := GravityRunner.gameState (updateGame f (run (startGame c0) es)) in
    (4 <= GameState.gameSpeed st)%Q /\ (GameState.gameSpeed st <= 12)%Q /\
    (GameState.gameSpeed st <= GameState.gameSpeed st')%Q /\
    (0 <= GameState.distance st)%Q /\
    (GameState.distance st' == GameState.distance st + GameState.gameSpeed st)%Q.
Proof.
  intros c0 es f st st'.
  assert (Hc : paced st).
  { subst st. unfold run.
    apply (fold_left_inv (fun c => paced (GravityRunner.gameState c)));
      [intros s a; apply handle_paced|].
    unfold startGame, paced. cbn. exact_arith.
    repeat split; (reflexivity || lra || lia). }
  destruct (paced_speed _ Hc) as [H4 H12].
  destruct (updateGame_paced f _ Hc) as [_ Hmono]. fold st st' in Hmono.
  repeat split; try assumption.
  - exact (proj1 (proj2 Hc)).
  - subst st st'. rewrite updateGame_distance. reflexivity.
Qed.

Section Score_lemmas.
Context {num : Type} `{Number num}.

Lemma obstacleStep_scoreKept hs (c : GravityRunner.t num) o :
  scoreKept c -> scoreKept (fst (obstacleStep hs c o)).
Proof.
  unfold scoreKept, obstacleStep. cbn. intros (Ev & H0 & Hd).
  destruct (nlt _ _); cbn.
  - split; [reflexivity|]. split; [lia|]. apply Z.divide_add_r; [exact Hd|reflexivity].
  - destruct (checkCollision _ _); [|now repeat split].
    destruct (score_gt _ _); now repeat split.
Qed.

Lemma updateGame_scoreKept f (c : GravityRunner.t num) :
  scoreKept c -> scoreKept (updateGame f c).
Proof.
  intros Hc. unfold updateGame, updateObstacles.
  destruct (physicsStep_frame f c) as (_ & _ & _ & Es & _). cbn zeta in Es.
  set (pre := createObstacle _ _ _).
  destruct (createObstacle_frame (Frame.now_spawn f) (Frame.random_spawn f)
              (GravityRunner.gameState (physicsStep f c))) as (_ & _ & Es2 & _).
  cbn zeta in Es2. fold pre in Es2.
  set (c1 := GravityRunner.set_gameState pre (physicsStep f c)).
  assert (H1 : scoreKept c1).
  { unfold scoreKept in *. subst c1. cbn. rewrite Es2, Es.
    unfold physicsStep, trackDistanceAndTime. cbn. exact Hc. }
  pose proof (filterWith_inv scoreKept (obstacleStep (GravityRunner.highScore c1))
                (GameState.obstacles (GravityRunner.gameState c1))
                (fun s a => obstacleStep_scoreKept _ s a) c1 H1) as H2.
  destruct (filterWith _ c1 _) as [c2 kept]. exact H2.
Qed.

Lemma handle_scoreKept (c : GravityRunner.t num) (e : Event num) :
  scoreKept c -> scoreKept (handle c e).
Proof.
  intros Hc.
  assert (Hstart : scoreKept (startGame c))
    by (unfold startGame, scoreKept; cbn; repeat split; [lia | apply Z.divide_0_r]).
  destruct e; cbn; try exact Hc; try exact Hstart.
  - unfold handleKeyDown.
    destruct (GravityRunner.gameStarted c), (GravityRunner.gameOver c); cbn; assumption.
  - unfold handleTouch.
    destruct (GravityRunner.gameStarted c), (GravityRunner.gameOver c); cbn; assumption.
  - unfold gameLoop. destruct (_ && _); [|exact Hc]. now apply updateGame_scoreKept.
Qed.

End Score_lemmas.

(** X11. In every state the component reaches, the score it displays is the
    score of the game, and that score is a non-negative multiple of 10.
    Any arithmetic. *)
Theorem displayed_score_is_the_score :
  forall (num : Type) (N : Number num) (ls : gmap string string) (es : list (Event num)),
    let c := run (mount ls) es in
    GravityRunner.score c = GameState.score (GravityRunner.gameState c) /\
    (0 <= GameState.score (GravityRunner.gameState c))%Z /\
    (10 | GameState.score (GravityRunner.gameState c))%Z.
Proof.
  intros num N ls es. cbn zeta. unfold run.
  apply (fold_left_inv scoreKept); [intros s a; apply handle_scoreKept|].
  unfold mount, scoreKept. cbn. repeat split; [lia | apply Z.divide_0_r].
Qed.


(** ** The high score along a game *)

(** X12. Once the high score is a number it stays one and never decreases,
    whatever keys, taps, restarts and frames follow.  Any arithmetic. *)
Theorem high_score_never_decreases :
  forall (num : Type) (N : Number num) (c : GravityRunner.t num) (es : list (Event num))
         (h : Z),
    GravityRunner.highScore c = Integral.Finite h ->
    exists h', GravityRunner.highScore (run c es) = Integral.Finite h' /\ (h <= h')%Z.
Proof.
  intros num N c es. unfold run. revert c.
  induction es as [|e es IH]; intros c h Hc; cbn; [exists h; split; [exact Hc | lia]|].
  assert (He : exists h1, GravityRunner.highScore (handle c e) = Integral.Finite h1 /\
                          (h <= h1)%Z).
  { apply (handle_high_score_inv
             (fun hs _ => exists h1, hs = Integral.Finite h1 /\ (h <= h1)%Z) c e).
    - exists h. split; [exact Hc | lia].
    - intros hs ls score _ Hgt. rewrite Hc in Hgt. cbn in Hgt.
      apply Z.ltb_lt in Hgt. exists score. split; [reflexivity | lia]. }
  destruct He as (h1 & E1 & Hle).
  destruct (IH (handle c e) h1 E1) as (h' & E' & Hle').
  exists h'. split; [exact E' | lia].
Qed.

Lemma high_score_never_decreases_witness :
  GravityRunner.highScore with40 = Integral.Finite 0 /\
  exists h',
    GravityRunner.highScore (run with40 [AnimationFrame (frameAt half 2000); KeyDownSpace])
    = Integral.Finite h' /\ (0 <= h')%Z.
Proof.
  assert (H0 : GravityRunner.highScore with40 = Integral.Finite 0) by reflexivity.
  split; [exact H0|].
  exact (high_score_never_decreases Q exact with40
           [AnimationFrame (frameAt half 2000); KeyDownSpace] 0%Z H0).
Defined.


(** X14. A stored value that [parseInt] cannot read makes the high score
    NaN for good: whatever is played, no score compares greater than NaN,
    so the high score stays NaN and [localStorage] is never written.  Any
    arithmetic. *)
Theorem unreadable_high_score_is_never_repaired :
  forall (num : Type) (N : Number num) (ls : gmap string string) (es : list (Event num)),
    readHighScore ls = Integral.NaN ->
    let c := run (mount ls) es in
    GravityRunner.highScore c = Integral.NaN /\ GravityRunner.localStorage c = ls.
Proof.
  intros num N ls es Hls. cbn zeta. unfold run.
  apply (fold_left_inv (fun c : GravityRunner.t num =>
           GravityRunner.highScore c = Integral.NaN /\ GravityRunner.localStorage c = ls)).
  - intros s e [Eh El].
    apply (handle_high_score_inv (fun hs l => hs = Integral.NaN /\ l = ls) s e).
    + now split.
    + intros hs l score _ Hgt. rewrite Eh in Hgt. discriminate Hgt.
  - unfold mount. cbn. now split.
Qed.

Lemma unreadable_high_score_is_never_repaired_witness :
  readHighScore corrupted = Integral.NaN /\
  let c : GravityRunner.t float :=
    run (mount corrupted) [KeyDownSpace; AnimationFrame (frameAt threeQuarters 2000)] in
  GravityRunner.highScore c = Integral.NaN /\ GravityRunner.localStorage c = corrupted.
Proof.
  assert (H : readHighScore corrupted = Integral.NaN) by reflexivity.
  split; [exact H|].
  exact (unreadable_high_score_is_never_repaired float binary64 corrupted
           [KeyDownSpace; AnimationFrame (frameAt threeQuarters 2000)] H).
Defined.


(** ** The physics step *)

(** X15. After the physics step of any frame, from any state, [onGround]
    says exactly that the player rests on the surface that attracts it, the
    ground ([y + height = 590]) when gravity is normal and the ceiling
    ([y = 50]) when it is flipped, and a player that rests has no velocity.
    Exact arithmetic. *)
Theorem onGround_means_resting :
  forall (f : Frame.t Q) (c : GravityRunner.t Q),
    let p' := GameState.player (GravityRunner.gameState (updateGame f c)) in
    (Player.onGround p' = true <->
     (Player.gravityFlipped p' = false /\ (Player.y p' + Player.height p' == 590)%Q) \/
     (Player.gravityFlipped p' = true /\ (Player.y p' == 50)%Q)) /\
    (Player.onGround p' = true -> (Player.velocityY p' == 0)%Q).
Proof.
  intros f c p'. subst p'. rewrite updateGame_player, physicsStep_player.
  destruct (GameState.player (GravityRunner.gameState c))
    as [x y w h v onG flipped flipping start].
  unfold groundCeilingCollision, applyGravity, updateFlipAnimation,
    getGroundY, getCeilingY, canvasSize_height, GRAVITY, JUMP_FORCE. cbn.
  destruct (Keys.space _ && negb flipping); cbn;
    destruct flipped; cbn;
    repeat match goal with
    | |- context [if ?b then _ else _] => destruct b eqn:?; cbn in *
    end;
    exact_arith; Qbools;
    (split; [split; [intros Hg; try discriminate Hg;
                      ((left; split; [reflexivity | lra])
                       || (right; split; [reflexivity | lra]))
                    | intros [[Hg He] | [Hg He]]; try discriminate Hg;
                      try reflexivity; exfalso; lra]
            | intros Hg; try discriminate Hg; lra]).
Qed.

(** X16. A frame that begins with the flip flag set and no flip under way
    inverts gravity and throws the old velocity away: the player either
    moves by exactly 15.8 (the impulse 15 and one frame of gravity 0.8)
    towards the surface that now attracts it, or would pass that surface
    and is put on it with no velocity.  Exact arithmetic. *)
Theorem flip_impulse_points_at_new_surface :
  forall (f : Frame.t Q) (c : GravityRunner.t Q),
    let p := GameState.player (GravityRunner.gameState c) in
    let p' := GameState.player (GravityRunner.gameState (updateGame f c)) in
    Keys.space (GameState.keys (GravityRunner.gameState c)) = true ->
    Player.isFlipping p = false ->
    Player.gravityFlipped p' = negb (Player.gravityFlipped p) /\
    (Player.gravityFlipped p' = true ->
     ((Player.velocityY p' == - (158 # 10))%Q /\
      (Player.y p' == Player.y p - (158 # 10))%Q /\ (50 < Player.y p')%Q) \/
     ((Player.velocityY p' == 0)%Q /\ (Player.y p' == 50)%Q /\
      (Player.y p - (158 # 10) <= 50)%Q)) /\
    (Player.gravityFlipped p' = false ->
     ((Player.velocityY p' == 158 # 10)%Q /\
      (Player.y p' == Player.y p + (158 # 10))%Q /\
      (Player.y p' + Player.height p' < 590)%Q) \/
     ((Player.velocityY p' == 0)%Q /\ (Player.y p' + Player.height p' == 590)%Q /\
      (590 <= Player.y p + (158 # 10) + Player.height p)%Q)).
Proof.
  intros f c p p' Hspace Hidle. subst p p'.
  rewrite updateGame_player, physicsStep_player. rewrite Hspace.
  destruct (GameState.player (GravityRunner.gameState c))
    as [x y w h v onG flipped flipping start].
  cbn in Hidle. subst flipping.
  unfold groundCeilingCollision, applyGravity, updateFlipAnimation,
    getGroundY, getCeilingY, canvasSize_height, GRAVITY, JUMP_FORCE. cbn.
  destruct flipped; cbn;
    repeat match goal with
    | |- context [if ?b then _ else _] => destruct b eqn:?; cbn in *
    end;
    exact_arith; Qbools;
    (split; [reflexivity|]; split; intros Hg; try discriminate Hg;
     ((left; repeat split; lra) || (right; repeat split; lra))).
Qed.

Lemma flip_impulse_points_at_new_surface_witness :
  let c : GravityRunner.t Q := set_space true fresh in
  let p := GameState.player (GravityRunner.gameState c) in
  let p' := GameState.player (GravityRunner.gameState (updateGame (frameAt half 1000) c)) in
  Player.gravityFlipped p' = true /\
  (Player.velocityY p' == - (158 # 10))%Q /\
  (Player.y p' == Player.y p - (158 # 10))%Q.
Proof.
  cbv zeta.
  destruct (flip_impulse_points_at_new_surface (frameAt half 1000) (set_space true fresh)
              eq_refl eq_refl) as (Hf & Hup & _).
  split; [exact Hf|].
  destruct (Hup Hf) as [(Hv & Hy & _) | (_ & Hy & _)]; [now split|].
  exfalso. revert Hy. vm_compute. discriminate.
Defined.

(** X17. In a game that has been started, whatever happened since, a frame
    never moves the player away from the surface that attracts it when the
    frame ends: with normal gravity [y] does not decrease, with flipped
    gravity it does not increase.  Exact arithmetic. *)
Theorem player_moves_towards_attracting_surface :
  forall (c0 : GravityRunner.t Q) (es : list (Event Q)) (f : Frame.t Q),
    let c := run (startGame c0) es in
    let p := GameState.player (GravityRunner.gameState c) in
    let p' := GameState.player (GravityRunner.gameState (updateGame f c)) in
    (Player.gravityFlipped p' = false -> (Player.y p <= Player.y p')%Q) /\
    (Player.gravityFlipped p' = true -> (Player.y p' <= Player.y p)%Q).
Proof.
  intros c0 es f c p p'.
  assert (Hc : settled p).
  { subst p c. unfold run.
    apply (fold_left_inv (fun c => settled (GameState.player (GravityRunner.gameState c)))).
    - intros s a. apply handle_settled.
    - apply startGame_settled. }
  subst p'. rewrite updateGame_player, physicsStep_player. fold p.
  destruct p as [x y w h v onG flipped flipping start].
  unfold settled, inBand in Hc. cbn in Hc. destruct Hc as ((Hc & Hg) & Hup & Hdown).
  unfold groundCeilingCollision, applyGravity, updateFlipAnimation,
    getGroundY, getCeilingY, canvasSize_height, GRAVITY, JUMP_FORCE in *. cbn.
  destruct (Keys.space _ && negb flipping); cbn;
    destruct flipped; cbn;
    repeat match goal with
    | |- context [if ?b then _ else _] => destruct b eqn:?; cbn in *
    end;
    exact_arith; Qbools;
    try (specialize (Hup eq_refl)); try (specialize (Hdown eq_refl));
    (split; intros Hfl; try discriminate Hfl; lra).
Qed.


(** ** Particles *)

Lemma particleStep_exact (p : Particle.t Q) :
  particleStep p =
    if Qltb 0 (Particle.life p - (2 # 100))
    then Some (Particle.Build (Particle.id p)
                 (Particle.x p + Particle.vx p) (Particle.y p + Particle.vy p)
                 (Particle.vx p * (98 # 100)) (Particle.vy p * (98 # 100))
                 (Particle.life p - (2 # 100)))%Q
    else None.
Proof. unfold particleStep. cbn. exact_arith. reflexivity. Qed.

Lemma particleSteps_lifetime (n : nat) :
  forall p : Particle.t Q,
    (inject_Z (Z.of_nat n) * (2 # 100) < Particle.life p)%Q ->
    (Particle.life p <= inject_Z (Z.of_nat (S n)) * (2 # 100))%Q ->
    (exists p', particleSteps n p = Some p' /\
                (Particle.life p' == Particle.life p - inject_Z (Z.of_nat n) * (2 # 100))%Q) /\
    particleSteps (S n) p = None.
Proof.
  induction n as [|n IH]; intros p Hlo Hhi.
  - change (inject_Z (Z.of_nat 0)) with 0%Q in *.
    change (inject_Z (Z.of_nat 1)) with 1%Q in *. split.
    + exists p. split; [reflexivity | lra].
    + cbn [particleSteps]. rewrite particleStep_exact.
      replace (Qltb 0 (Particle.life p - (2 # 100))) with false; [reflexivity|].
      symmetry. apply Qltb_false. lra.
  - rewrite !Nat2Z.inj_succ in *. unfold Z.succ in *. rewrite !inject_Z_plus in *.
    change (inject_Z 1) with 1%Q in *.
    change (particleSteps (S (S n)) p)
      with (match particleStep p with
            | Some p1 => particleSteps (S n) p1 | None => None end).
    change (particleSteps (S n) p)
      with (match particleStep p with
            | Some p1 => particleSteps n p1 | None => None end).
    rewrite particleStep_exact.
    assert (Hn : (0 <= inject_Z (Z.of_nat n))%Q) by (apply inject_Z_nonneg; lia).
    replace (Qltb 0 (Particle.life p - (2 # 100))) with true
      by (symmetry; apply Qltb_true; lra).
    set (p1 := Particle.Build _ _ _ _ _ _).
    destruct (IH p1) as ((p' & E & Hl) & Hnone).
    + subst p1. cbn [Particle.life]. lra.
    + subst p1. cbn [Particle.life]. lra.
    + split; [|exact Hnone]. exists p'. split; [exact E|].
      rewrite Hl. subst p1. cbn [Particle.life]. lra.
Qed.

(** X18. Every frame takes 0.02 off the life of a particle, moves it by its
    velocity and damps the velocity by 0.98, and drops the particle as soon
    as its life is no longer positive; so a particle whose life is between
    [0.02 n] (excluded) and [0.02 (n + 1)] survives exactly [n] frames, and
    one created with life 1 is gone with its 50th frame.  Exact
    arithmetic. *)
Theorem particle_lifetime :
  forall (p : Particle.t Q) (n : nat),
    (inject_Z (Z.of_nat n) * (2 # 100) < Particle.life p)%Q ->
    (Particle.life p <= inject_Z (Z.of_nat (S n)) * (2 # 100))%Q ->
    (exists p', particleSteps n p = Some p' /\
                (Particle.life p' == Particle.life p - inject_Z (Z.of_nat n) * (2 # 100))%Q) /\
    particleSteps (S n) p = None /\
    (forall q q' : Particle.t Q,
       particleStep q = Some q' ->
       (Particle.life q' == Particle.life q - (2 # 100))%Q /\ (0 < Particle.life q')%Q /\
       (Particle.x q' == Particle.x q + Particle.vx q)%Q /\
       (Particle.y q' == Particle.y q + Particle.vy q)%Q /\
       (Particle.vx q' == Particle.vx q * (98 # 100))%Q /\
       (Particle.vy q' == Particle.vy q * (98 # 100))%Q) /\
    (forall st : GameState.t Q,
       GameState.particles (updateParticles st) = omap particleStep (GameState.particles st)).
Proof.
  intros p n Hlo Hhi.
  destruct (particleSteps_lifetime n p Hlo Hhi) as [Hsome Hnone].
  split; [exact Hsome|]. split; [exact Hnone|]. split.
  - intros q q' E. rewrite particleStep_exact in E.
    destruct (Qltb _ _) eqn:El; [|discriminate E]. injection E as <-. cbn.
    apply Qltb_true in El. repeat split; (reflexivity || exact El).
  - intros st. unfold updateParticles. cbn.
    induction (GameState.particles st) as [|a l IH]; [reflexivity|].
    cbn [filterWith omap list_omap]. cbn in IH.
    destruct (filterWith _ tt l) as [[] rest]. cbn in *. rewrite IH.
    now destruct (particleStep a).
Qed.

Lemma particle_lifetime_witness :
  (exists p', particleSteps 49 spark = Some p' /\ (Particle.life p' == 2 # 100)%Q) /\
  particleSteps 50 spark = None.
Proof.
  destruct (particle_lifetime spark 49) as ((p' & E & Hl) & Hn & _).
  - vm_compute. reflexivity.
  - vm_compute. discriminate.
  - split; [|exact Hn]. exists p'. split; [exact E|]. rewrite Hl. vm_compute. reflexivity.
Defined.

(** ** The phases of the component *)

Section Phase_lemmas.
Context {num : Type} `{Number num}.

Lemma obstacleStep_gameStarted hs (c : GravityRunner.t num) o :
  GravityRunner.gameStarted (fst (obstacleStep hs c o)) = GravityRunner.gameStarted c.
Proof.
  unfold obstacleStep. cbn.
  destruct (nlt _ _); [reflexivity|].
  destruct (checkCollision _ _); [|reflexivity].
  destruct (score_gt _ _); reflexivity.
Qed.

Lemma updateGame_gameStarted f (c : GravityRunner.t num) :
  GravityRunner.gameStarted (updateGame f c) = GravityRunner.gameStarted c.
Proof.
  unfold updateGame, updateObstacles. cbn zeta.
  set (c1 := GravityRunner.set_gameState _ (physicsStep f c)).
  assert (Hinv := filterWith_inv
    (fun s => GravityRunner.gameStarted s = GravityRunner.gameStarted c)
    (obstacleStep (GravityRunner.highScore c1)) (GameState.obstacles (GravityRunner.gameState c1))
    (fun s a Hs => eq_trans (obstacleStep_gameStarted _ s a) Hs) c1 eq_refl).
  destruct (filterWith _ c1 _) as [c2 kept]. exact Hinv.
Qed.

Lemma phase_startGame (c : GravityRunner.t num) : phase (startGame c) = Running.
Proof. reflexivity. Qed.

Lemma phase_set_space v (c : GravityRunner.t num) : phase (set_space v c) = phase c.
Proof. reflexivity. Qed.

Lemma phase_cases (c : GravityRunner.t num) :
  (phase c = GameOver /\ GravityRunner.gameOver c = true) \/
  (phase c = Running /\ GravityRunner.gameOver c = false /\
   GravityRunner.gameStarted c = true) \/
  (phase c = Idle /\ GravityRunner.gameOver c = false /\
   GravityRunner.gameStarted c = false).
Proof.
  unfold phase.
  destruct (GravityRunner.gameOver c), (GravityRunner.gameStarted c); auto.
Qed.

Lemma phase_updateGame f (c : GravityRunner.t num) :
  phase c = Running -> phase (updateGame f c) <> Idle.
Proof.
  intros Hc. destruct (phase_cases c) as [[E _]|[(_ & Eo & Es)|[E _]]]; try congruence.
  unfold phase. rewrite updateGame_gameStarted, Es.
  destruct (GravityRunner.gameOver (updateGame f c)); congruence.
Qed.

(** What each handler does in each phase. *)
Lemma handle_cases (c : GravityRunner.t num) e :
  handle c e =
    match e with
    | KeyDownSpace | CanvasClick =>
        match phase c with Running => set_space true c | _ => startGame c end
    | KeyUpSpace | TouchTimeout => set_space false c
    | StartButton => startGame c
    | AnimationFrame f =>
        match phase c with Running => updateGame f c | _ => c end
    end.
Proof.
  destruct e; cbn [handle];
    unfold handleKeyDown, handleKeyUp, handleTouch, touchTimeout, gameLoop, phase;
    destruct (GravityRunner.gameOver c), (GravityRunner.gameStarted c); reflexivity.
Qed.

Lemma handle_not_Idle (c : GravityRunner.t num) e :
  phase c <> Idle -> phase (handle c e) <> Idle.
Proof.
  intros Hc. rewrite handle_cases.
  destruct e; destruct (phase c) eqn:E;
    rewrite ?phase_startGame, ?phase_set_space, ?E; try congruence.
  now apply phase_updateGame.
Qed.

End Phase_lemmas.

(** X19. The component has three phases: the start screen, play and game
    over.  It mounts on the start screen, and once a game has been started
    no key, tap, button or frame brings the start screen back.  While no
    game is running a frame changes nothing and the only thing that can
    happen besides the release of the flip flag is a new game, by Space, a
    tap or the button; a new game is in play, with the score at 0, no
    obstacles, and the high score and [localStorage] as they were.  During
    play Space and a tap only raise the flip flag, and only a frame can end
    the game.  Any arithmetic. *)
Theorem phases_of_the_component :
  forall (num : Type) (N : Number num) (ls : gmap string string)
         (c : GravityRunner.t num) (es : list (Event num)) (e : Event num),
    phase (mount (num := num) ls) = Idle /\
    (phase c <> Idle -> phase (run c es) <> Idle) /\
    (phase c <> Running ->
       (exists f, e = AnimationFrame f) /\ handle c e = c \/
       (e = KeyUpSpace \/ e = TouchTimeout) /\ handle c e = set_space false c \/
       starts e = true /\ handle c e = startGame c) /\
    (phase (startGame c) = Running /\
     GravityRunner.score (startGame c) = 0%Z /\
     GameState.score (GravityRunner.gameState (startGame c)) = 0%Z /\
     GameState.obstacles (GravityRunner.gameState (startGame c)) = [] /\
     GravityRunner.highScore (startGame c) = GravityRunner.highScore c /\
     GravityRunner.localStorage (startGame c) = GravityRunner.localStorage c) /\
    (phase c = Running ->
       (e = KeyDownSpace \/ e = CanvasClick -> handle c e = set_space true c) /\
       (phase (handle c e) = GameOver -> exists f, e = AnimationFrame f)).
Proof.
  intros num N ls c es e.
  split; [reflexivity|]. split; [|split; [|split]].
  - revert c. induction es as [|a es IH]; intros c Hc; [exact Hc|].
    cbn [run fold_left]. apply IH. now apply handle_not_Idle.
  - intros Hc. rewrite handle_cases.
    destruct e; cbn [starts]; destruct (phase c); try congruence; eauto 6.
  - repeat split.
  - intros Hc. rewrite handle_cases, Hc. split.
    + intros [-> | ->]; reflexivity.
    + destruct e; rewrite ?phase_startGame, ?phase_set_space, ?Hc; eauto; discriminate.
Qed.

(** ** Particles and the game *)

Section Particle_lemmas.
Context {num : Type} `{Number num}.

Lemma set_particles_twice (ps qs : list (Particle.t num)) st :
  GameState.set_particles ps (GameState.set_particles qs st) = GameState.set_particles ps st.
Proof. reflexivity. Qed.

Lemma withParticles_twice (ps qs : list (Particle.t num)) c :
  withParticles ps (withParticles qs c) = withParticles ps c.
Proof. reflexivity. Qed.

Lemma forget_withParticles (ps : list (Particle.t num)) c :
  forget (withParticles ps c) = forget c.
Proof. reflexivity. Qed.

Lemma forget_eq (c c' : GravityRunner.t num) :
  forget c = forget c' ->
  c = withParticles (GameState.particles (GravityRunner.gameState c)) c'.
Proof.
  destruct c as [a1 a2 a3 a4 a5 a6 [s1 s2 s3 s4 s5 s6 s7 s8 s9] a8].
  destruct c' as [b1 b2 b3 b4 b5 b6 [t1 t2 t3 t4 t5 t6 t7 t8 t9] b8].
  unfold forget, withParticles. cbn. intros E. injection E as -> -> -> -> -> -> -> -> -> -> -> -> -> -> ->.
  reflexivity.
Qed.

Lemma createParticles_particles x y now random l :
  forall st : GameState.t num,
    exists qs, fold_left (createParticle x y now random) l st = GameState.set_particles qs st.
Proof.
  induction l as [|i l IH]; intros st.
  - exists (GameState.particles st). now destruct st.
  - cbn [fold_left]. destruct (IH (createParticle x y now random st i)) as [qs E].
    exists qs. rewrite E. reflexivity.
Qed.

Lemma createParticles_only x y now random (st : GameState.t num) :
  exists qs, createParticles x y now random st = GameState.set_particles qs st.
Proof. apply createParticles_particles. Qed.

Lemma handleGravityFlip_particles f f' ps (st : GameState.t num) :
  Frame.now_flip f = Frame.now_flip f' ->
  exists ps',
    handleGravityFlip f (GameState.set_particles ps st)
    = GameState.set_particles ps' (handleGravityFlip f' st).
Proof.
  intros Ef. unfold handleGravityFlip. cbn zeta.
  change (GameState.keys (GameState.set_particles ps st)) with (GameState.keys st).
  change (GameState.player (GameState.set_particles ps st)) with (GameState.player st).
  rewrite Ef. destruct (_ && _).
  - match goal with
    | |- exists _, createParticles ?x ?y ?n ?r ?s
                   = GameState.set_particles _ (createParticles ?x' ?y' ?n' ?r' ?s') =>
        destruct (createParticles_only x y n r s) as [qs E];
        destruct (createParticles_only x' y' n' r' s') as [qs' E'];
        rewrite E, E'
    end.
    exists qs. reflexivity.
  - exists ps. reflexivity.
Qed.

Lemma trackDistanceAndTime_particles f f' ps (c : GravityRunner.t num) :
  Frame.now_frame f = Frame.now_frame f' ->
  trackDistanceAndTime f (withParticles ps c) = withParticles ps (trackDistanceAndTime f' c).
Proof.
  intros Ef. unfold trackDistanceAndTime, withParticles. cbn. rewrite Ef.
  destruct (_ =? _)%Z; reflexivity.
Qed.

Lemma physicsStep_particles f f' ps (c : GravityRunner.t num) :
  sameGameplayInputs f f' ->
  exists ps', physicsStep f (withParticles ps c) = withParticles ps' (physicsStep f' c).
Proof.
  intros (E1 & E2 & E3 & _). unfold physicsStep. cbn zeta.
  rewrite (trackDistanceAndTime_particles f f' ps c E1).
  destruct (handleGravityFlip_particles f f' ps
              (GravityRunner.gameState (trackDistanceAndTime f' c)) E2) as [ps' E].
  exists ps'. unfold withParticles at 1 2. cbn [GravityRunner.gameState GravityRunner.set_gameState].
  rewrite E. unfold updateFlipAnimation. rewrite E3.
  set (t := trackDistanceAndTime f' c). set (hg := handleGravityFlip f' _).
  change (GameState.player (GameState.set_particles ps' hg)) with (GameState.player hg).
  set (p := groundCeilingCollision _). clearbody p hg t.
  reflexivity.
Qed.

Lemma fold_createSpike_particles now random ps l :
  forall st : GameState.t num,
    fold_left (createSpike now random) l (GameState.set_particles ps st)
    = GameState.set_particles ps (fold_left (createSpike now random) l st).
Proof.
  induction l as [|i l IH]; intros st; [reflexivity|].
  cbn [fold_left]. rewrite <- IH. reflexivity.
Qed.

Lemma createObstacle_particles now random ps (st : GameState.t num) :
  createObstacle now random (GameState.set_particles ps st)
  = GameState.set_particles ps (createObstacle now random st).
Proof.
  unfold createObstacle. cbn.
  destruct (_ <? _)%Z; [reflexivity|].
  unfold createSpikePattern.
  destruct (Math_floor _) as [|[p|p|]|p]; try reflexivity;
    try (destruct p; reflexivity).
  destruct p; try reflexivity; cbn zeta; rewrite fold_createSpike_particles; reflexivity.
Qed.

Lemma obstacleStep_particles hs ps (c : GravityRunner.t num) o :
  obstacleStep hs (withParticles ps c) o
  = (withParticles ps (fst (obstacleStep hs c o)), snd (obstacleStep hs c o)).
Proof.
  unfold obstacleStep, withParticles. cbn.
  destruct (nlt _ _); [reflexivity|].
  destruct (checkCollision _ _); [|reflexivity].
  destruct (score_gt _ _); reflexivity.
Qed.

Lemma filterWith_obstacleStep_particles hs ps l :
  forall c : GravityRunner.t num,
    filterWith (obstacleStep hs) (withParticles ps c) l
    = (withParticles ps (fst (filterWith (obstacleStep hs) c l)),
       snd (filterWith (obstacleStep hs) c l)).
Proof.
  induction l as [|o l IH]; intros c; [reflexivity|].
  cbn [filterWith]. rewrite obstacleStep_particles.
  destruct (obstacleStep hs c o) as [c1 keep]. cbn [fst snd].
  rewrite IH. destruct (filterWith (obstacleStep hs) c1 l) as [c2 rest]. reflexivity.
Qed.

Lemma updateObstacles_particles ps (c : GravityRunner.t num) :
  updateObstacles (withParticles ps c) = withParticles ps (updateObstacles c).
Proof.
  unfold updateObstacles.
  change (GravityRunner.highScore (withParticles ps c)) with (GravityRunner.highScore c).
  change (GameState.obstacles (GravityRunner.gameState (withParticles ps c)))
    with (GameState.obstacles (GravityRunner.gameState c)).
  rewrite filterWith_obstacleStep_particles.
  destruct (filterWith _ c _) as [c2 kept]. reflexivity.
Qed.

Lemma updateGame_particles f f' ps (c : GravityRunner.t num) :
  sameGameplayInputs f f' ->
  exists ps', updateGame f (withParticles ps c) = withParticles ps' (updateGame f' c).
Proof.
  intros Hf. destruct (physicsStep_particles f f' ps c Hf) as [ps1 E1].
  destruct Hf as (_ & _ & _ & E4 & E5).
  unfold updateGame. cbn zeta. rewrite E1, E4, E5.
  set (c1 := physicsStep f' c).
  change (GravityRunner.gameState (withParticles ps1 c1))
    with (GameState.set_particles ps1 (GravityRunner.gameState c1)).
  rewrite createObstacle_particles.
  set (st2 := createObstacle _ _ _).
  change (GravityRunner.set_gameState (GameState.set_particles ps1 st2) (withParticles ps1 c1))
    with (withParticles ps1 (GravityRunner.set_gameState st2 c1)).
  rewrite updateObstacles_particles.
  set (c3 := updateObstacles _).
  eexists. unfold updateParticles, updateSpeed, withParticles. cbn. reflexivity.
Qed.

Lemma handle_particles (c : GravityRunner.t num) ps e e' :
  sameGameplayEvent e e' ->
  exists ps', handle (withParticles ps c) e = withParticles ps' (handle c e').
Proof.
  intros He.
  destruct e, e'; cbn in He; try discriminate He; try contradiction; cbn [handle];
    unfold handleKeyDown, handleKeyUp, handleTouch, touchTimeout, gameLoop;
    change (GravityRunner.gameStarted (withParticles ps c)) with (GravityRunner.gameStarted c);
    change (GravityRunner.gameOver (withParticles ps c)) with (GravityRunner.gameOver c);
    try (destruct (GravityRunner.gameOver c), (GravityRunner.gameStarted c);
         cbn [negb andb]; first [now exists [] | now exists ps]).
  destruct (GravityRunner.gameOver c), (GravityRunner.gameStarted c);
    cbn [negb andb]; try (now exists ps).
  now apply updateGame_particles.
Qed.

Lemma run_particles es :
  forall es' (c : GravityRunner.t num) ps,
    Forall2 sameGameplayEvent es es' ->
    exists ps', run (withParticles ps c) es = withParticles ps' (run c es').
Proof.
  induction es as [|e es IH]; intros es' c ps Hes.
  - apply Forall2_nil_inv_l in Hes as ->. now exists ps.
  - apply Forall2_cons_inv_l in Hes as (e' & es1 & He & Hes & ->).
    cbn [run fold_left].
    destruct (handle_particles c ps e e' He) as [ps1 E1]. rewrite E1.
    apply (IH es1 (handle c e') ps1 Hes).
Qed.

End Particle_lemmas.

(** X20. Particles are decoration.  Two games that differ only in their
    particles, played with the same keys, taps and frames (the frames may
    differ in the clock readings and random draws that [createParticles]
    takes), differ only in their particles ever after: player, obstacles,
    score, speed, game over, high score and [localStorage] are the same.
    Any arithmetic. *)
Theorem particles_never_change_the_game :
  forall (num : Type) (N : Number num) (c c' : GravityRunner.t num)
         (es es' : list (Event num)),
    forget c = forget c' ->
    Forall2 sameGameplayEvent es es' ->
    forget (run c es) = forget (run c' es').
Proof.
  intros num N c c' es es' Hc Hes.
  rewrite (forget_eq c c' Hc).
  destruct (run_particles es es' c' (GameState.particles (GravityRunner.gameState c)) Hes)
    as [ps' E].
  rewrite E. apply forget_withParticles.
Qed.

Lemma particles_never_change_the_game_witness :
  forget (run with40_sparks [KeyDownSpace; AnimationFrame (frameAt half 2000)])
  = forget (run with40 [KeyDownSpace; AnimationFrame otherSparks]).
Proof.
  apply particles_never_change_the_game.
  - reflexivity.
  - constructor; [reflexivity|].
    constructor; [|constructor].
    cbn. repeat split.
Defined.
